(** * interactiveJS: geometry and window-lifecycle engine

    A shallow embedding of the pointer-drag, resize, maximize/restore and
    minimized-item bookkeeping code of interactiveJS
    ([draggable.js], the resizable module and [minMaxClose.js], together with
    the combined build that follows it in the same file), and the properties
    of it that the design document states.

    Conventions.
    - Pixel quantities are JavaScript numbers that hold integers (pointer
      coordinates, offsets, parsed pixel lengths); they are modelled as [Z].
      Doubles are exact on integers far beyond any screen size.
    - The DOM is modelled by the attributes the code reads and writes: the
      inline style of the pane element and of its resize wrapper, the
      children of the minimize zone, and the global variables of the module.
    - A handler that can throw (a [TypeError] on [undefined], a failing
      [removeChild]) returns [option]; [None] is the thrown exception. *)

From Stdlib Require Import ZArith Lia Bool.
From stdpp Require Import gmap strings list fin_maps.

Local Open Scope Z_scope.

(** ** CSS lengths as the code writes and parses them *)

Module Css.

(** The text of a length property: ['<n>px'], ['<n>%'] or ['auto'].  The code
    writes pixel lengths as [n + 'px'] and the literal ['100%']. *)
Inductive CssLen : Type :=
  | Px (n : Z)
  | Pct (n : Z)
  | Auto.

#[export] Instance CssLen_eq_dec : EqDecision CssLen.
Proof. solve_decision. Defined.

(** [parseInt(v.slice(0, -2))], the idiom used on [element.style.width] and
    [element.style.height].  [None] is [NaN].
    - ['<n>px']: the slice drops ['px'] and the decimal text of [n] is parsed
      back to [n];
    - ['<n>%']: the slice drops ['%'] and the last digit, so ['100%'] reads as
      [10]; with a single digit nothing is left and the result is [NaN];
    - ['auto']: the slice is ['au'], which is [NaN]. *)
Definition parseIntSlice2 (v : CssLen) : option Z :=
  match v with
  | Px n => Some n
  | Pct n => if 10 <=? Z.abs n then Some (Z.quot n 10) else None
  | Auto => None
  end.

(** The used value of a length against the size of its containing block. *)
Definition usedLength (containing : Z) (v : CssLen) : Z :=
  match v with
  | Px n => n
  | Pct n => n * containing / 100
  | Auto => containing
  end.

End Css.
Export Css.

(** ** The DOM attributes the code touches *)

Module Dom.

(** The values of [style.display] that occur: the initial one, ['none'],
    ['block'] and ['grid']. *)
Inductive Display : Type :=
  | DisplayInitial
  | DisplayNone
  | DisplayBlock
  | DisplayGrid.

#[export] Instance Display_eq_dec : EqDecision Display.
Proof. solve_decision. Defined.

(** The style properties of one element that the code reads or writes.
    [gridTemplateRows] and [gridTemplateColumns] hold the middle track [n] of
    the template ['3px <n>px 3px'], the only form the code writes. *)
Record Style : Type := mkStyle {
  top : Z;
  left : Z;
  margin : Z;
  width : CssLen;
  height : CssLen;
  gridTemplateRows : Z;
  gridTemplateColumns : Z;
  display : Display
}.

#[export] Instance Style_eq_dec : EqDecision Style.
Proof. solve_decision. Defined.

(** A pane: the element made interactive and, when it carries the class
    ['resizable'], its parent of class ['parentResize'] that holds the eight
    resize points around it. *)
Record Pane : Type := mkPane {
  id : string;
  resizable : bool;
  style : Style;
  parentStyle : Style
}.

#[export] Instance Pane_eq_dec : EqDecision Pane.
Proof. solve_decision. Defined.

(** What the browser reports about the viewport. *)
Record Window : Type := mkWindow {
  innerWidth : Z;
  innerHeight : Z;
  documentElementClientWidth : Z;
  documentElementClientHeight : Z;
  bodyClientWidth : Z;
  bodyClientHeight : Z
}.

(** Style writes, one per property. *)
Definition set_top (v : Z) (s : Style) : Style :=
  mkStyle v (left s) (margin s) (width s) (height s)
          (gridTemplateRows s) (gridTemplateColumns s) (display s).
Definition set_left (v : Z) (s : Style) : Style :=
  mkStyle (top s) v (margin s) (width s) (height s)
          (gridTemplateRows s) (gridTemplateColumns s) (display s).
Definition set_margin (v : Z) (s : Style) : Style :=
  mkStyle (top s) (left s) v (width s) (height s)
          (gridTemplateRows s) (gridTemplateColumns s) (display s).
Definition set_width (v : CssLen) (s : Style) : Style :=
  mkStyle (top s) (left s) (margin s) v (height s)
          (gridTemplateRows s) (gridTemplateColumns s) (display s).
Definition set_height (v : CssLen) (s : Style) : Style :=
  mkStyle (top s) (left s) (margin s) (width s) v
          (gridTemplateRows s) (gridTemplateColumns s) (display s).
Definition set_gridTemplateRows (v : Z) (s : Style) : Style :=
  mkStyle (top s) (left s) (margin s) (width s) (height s)
          v (gridTemplateColumns s) (display s).
Definition set_gridTemplateColumns (v : Z) (s : Style) : Style :=
  mkStyle (top s) (left s) (margin s) (width s) (height s)
          (gridTemplateRows s) v (display s).
Definition set_display (v : Display) (s : Style) : Style :=
  mkStyle (top s) (left s) (margin s) (width s) (height s)
          (gridTemplateRows s) (gridTemplateColumns s) v.

Definition with_style (f : Style -> Style) (p : Pane) : Pane :=
  mkPane (id p) (resizable p) (f (style p)) (parentStyle p).
Definition with_parentStyle (f : Style -> Style) (p : Pane) : Pane :=
  mkPane (id p) (resizable p) (style p) (f (parentStyle p)).

(** Layout.  The panes are positioned boxes without margin whose offset
    parent sits at the origin of the body, so that [offsetLeft] and
    [offsetTop] read back the pixel values of [style.left] and [style.top].
    The wrapper of a resizable pane is a grid of three tracks, [3px], the
    middle track and [3px], in each direction; a plain element has its used
    width and height. *)
Definition offsetLeft (s : Style) : Z := left s.
Definition offsetTop (s : Style) : Z := top s.

(** The element that the drag handle moves: [draggable] replaces the element
    by its parent when the element is resizable. *)
Definition dragTarget (p : Pane) : Style :=
  if resizable p then parentStyle p else style p.
Definition with_dragTarget (f : Style -> Style) (p : Pane) : Pane :=
  if resizable p then with_parentStyle f p else with_style f p.

Definition offsetWidth (w : Window) (p : Pane) : Z :=
  if resizable p then 3 + gridTemplateColumns (parentStyle p) + 3
  else usedLength (bodyClientWidth w) (width (style p)).
Definition offsetHeight (w : Window) (p : Pane) : Z :=
  if resizable p then 3 + gridTemplateRows (parentStyle p) + 3
  else usedLength (bodyClientHeight w) (height (style p)).

End Dom.
Export Dom.

(** ** draggable.js *)

Module Draggable.

Record MouseDrag : Type := mkMouseDrag { md_x : Z; md_y : Z }.
Record Position : Type := mkPosition { x : Z; y : Z }.

(** The object built by [getElementOffsetAndMeasures]. *)
Record Measures : Type := mkMeasures {
  m_left : Z;
  m_top : Z;
  m_height : Z;
  m_width : Z
}.

Record Boundaries : Type := mkBoundaries {
  b_left : Z;
  b_top : Z;
  b_right : Z;
  b_bottom : Z
}.

Definition getElementOffsetAndMeasures (w : Window) (p : Pane) : Measures :=
  {| m_left := offsetLeft (dragTarget p);
     m_top := offsetTop (dragTarget p);
     m_height := offsetHeight w p;
     m_width := offsetWidth w p |}.

Definition getDocumentBodyLimits (w : Window) : Boundaries :=
  {| b_left := 0;
     b_right := bodyClientWidth w;
     b_top := 0;
     b_bottom := bodyClientHeight w |}.

(** The four tests run in the order of the source, each overwriting a field
    of [newPosition]. *)
Definition preventDragOutsideScreen (w : Window) (element : Measures)
    (newPosition : Position) (boundaries : Boundaries) : Position :=
  let limit := getDocumentBodyLimits w in
  let newPosition :=
    if b_left boundaries <? b_left limit
    then mkPosition (m_left element) (y newPosition) else newPosition in
  let newPosition :=
    if b_top boundaries <? b_top limit
    then mkPosition (x newPosition) (m_top element) else newPosition in
  let newPosition :=
    if b_right boundaries >? b_right limit
    then mkPosition (m_left element) (y newPosition) else newPosition in
  let newPosition :=
    if b_bottom boundaries >? b_bottom limit
    then mkPosition (x newPosition) (m_top element) else newPosition in
  newPosition.

Definition getDragNewPosition (w : Window) (ele : Pane) (mouseDrag : MouseDrag)
    : Position :=
  let element := getElementOffsetAndMeasures w ele in
  let newPosition :=
    {| x := m_left element - md_x mouseDrag;
       y := m_top element - md_y mouseDrag |} in
  let boundaries :=
    {| b_left := x newPosition;
       b_top := y newPosition;
       b_right := x newPosition + m_width element;
       b_bottom := y newPosition + m_height element |} in
  preventDragOutsideScreen w element newPosition boundaries.

(** The body of the mouse-move handler of [drag], which is also the ['drag']
    branch of [dragAction]: the new position is written to [style.left] and
    [style.top] of the dragged element. *)
Definition drag (w : Window) (p : Pane) (mouseDrag : MouseDrag) : Pane :=
  let newPosition := getDragNewPosition w p mouseDrag in
  with_dragTarget (fun s => set_top (y newPosition) (set_left (x newPosition) s)) p.

End Draggable.
Export Draggable.

(** ** The resizable module *)

Module Resizable.

(** The class names of the eight resize points, in the order in which
    [addResizePoints] creates them. *)
Definition resizePoints : list string :=
  ["left"; "upperLeft"; "top"; "upperRight"; "right"; "lowerRight"; "bottom";
   "lowerLeft"]%string.

(** Zone codes: [0] left, [1] right, [2] top, [3] bottom; [None] is
    [undefined]. *)
Definition getHorizontalResizePointZone (resizePoint : string) : option Z :=
  if (String.eqb resizePoint "left" || String.eqb resizePoint "upperLeft"
      || String.eqb resizePoint "lowerLeft")%bool then Some 0
  else if (String.eqb resizePoint "right" || String.eqb resizePoint "upperRight"
           || String.eqb resizePoint "lowerRight")%bool then Some 1
  else None.

Definition getVerticalResizePointZone (resizePoint : string) : option Z :=
  if (String.eqb resizePoint "top" || String.eqb resizePoint "upperLeft"
      || String.eqb resizePoint "upperRight")%bool then Some 2
  else if (String.eqb resizePoint "bottom" || String.eqb resizePoint "lowerLeft"
           || String.eqb resizePoint "lowerRight")%bool then Some 3
  else None.

Definition getResizePointZone (resizePoint : string) : option Z * option Z :=
  (getHorizontalResizePointZone resizePoint,
   getVerticalResizePointZone resizePoint).

(** [changeHorizontalMeasures(element, parent, mouseDrag, zone)].  When the
    parsed width is [NaN] so is the new width, both comparisons on it are
    false and nothing is written. *)
Definition changeHorizontalMeasures (w : Window) (p : Pane) (mouseDrag : Z)
    (zone : option Z) : Pane :=
  match zone with
  | None => p
  | Some zone =>
    let mouseDrag := if zone =? 1 then - mouseDrag else mouseDrag in
    match parseIntSlice2 (width (style p)) with
    | None => p
    | Some parsed =>
      let width := parsed + mouseDrag in
      let offsetLeft := offsetLeft (parentStyle p) in
      if (zone =? 1) && (offsetLeft + width + 6 >? bodyClientWidth w) then p
      else if width >=? 5 then
        if zone =? 0 then
          let newOffset := offsetLeft - mouseDrag in
          if newOffset <? 0 then p
          else
            with_parentStyle (set_gridTemplateColumns width)
              (with_style (set_width (Px width))
                 (with_parentStyle (set_left newOffset) p))
        else
          with_parentStyle (set_gridTemplateColumns width)
            (with_style (set_width (Px width)) p)
      else p
    end
  end.

(** [changeVerticalMeasures(element, parent, mouseDrag, zone)]. *)
Definition changeVerticalMeasures (w : Window) (p : Pane) (mouseDrag : Z)
    (zone : option Z) : Pane :=
  match zone with
  | None => p
  | Some zone =>
    let mouseDrag := if zone =? 3 then - mouseDrag else mouseDrag in
    match parseIntSlice2 (height (style p)) with
    | None => p
    | Some parsed =>
      let height := parsed + mouseDrag in
      let offsetTop := offsetTop (parentStyle p) in
      if (zone =? 3) && (offsetTop + height + 6 >? bodyClientHeight w) then p
      else if height >=? 5 then
        if zone =? 2 then
          let newOffset := offsetTop - mouseDrag in
          if newOffset <? 0 then p
          else
            with_parentStyle (set_gridTemplateRows height)
              (with_style (set_height (Px height))
                 (with_parentStyle (set_top newOffset) p))
        else
          with_parentStyle (set_gridTemplateRows height)
            (with_style (set_height (Px height)) p)
      else p
    end
  end.

(** The body of the mouse-move handler of [resize], named
    [changeElementSizeAndPosition] in the combined build. *)
Definition changeElementSizeAndPosition (w : Window) (p : Pane)
    (resizePoint : string) (mouseDrag : MouseDrag) : Pane :=
  let zone := getResizePointZone resizePoint in
  let p := changeHorizontalMeasures w p (md_x mouseDrag) (fst zone) in
  changeVerticalMeasures w p (md_y mouseDrag) (snd zone).

(** One iteration of the loop of [resizeOnWindowChange], on the wrapper
    [parents[i]] and its first element child. *)
Definition resizeOnWindowChange_pane (w : Window) (p : Pane) : Pane :=
  let windowW := bodyClientWidth w in
  let windowH := bodyClientHeight w in
  (* Width adjustments *)
  let leftOffset := offsetLeft (parentStyle p) in
  let p1 :=
    match parseIntSlice2 (width (style p)) with
    | None => p
    | Some parsed =>
      let parentWidth := parsed + 6 in
      if leftOffset + parentWidth >? windowW then
        let width := windowW - leftOffset - 6 in
        if width >=? 5 then
          with_style (set_width (Px width))
            (with_parentStyle (set_gridTemplateColumns width) p)
        else
          let newOffset := windowW - 5 - 6 in
          with_parentStyle (set_left newOffset) p
      else p
    end in
  (* Height adjustments *)
  let offsetTop := offsetTop (parentStyle p1) in
  match parseIntSlice2 (height (style p1)) with
  | None => p1
  | Some parsed =>
    let parentHeight := parsed + 6 in
    if offsetTop + parentHeight >? windowH then
      let height := windowH - offsetTop - 6 in
      if height >=? 5 then
        with_style (set_height (Px height))
          (with_parentStyle (set_gridTemplateRows height) p1)
      else
        let newOffset := windowH - 5 - 6 in
        if newOffset >=? 0 then with_parentStyle (set_top newOffset) p1
        else p1
    else p1
  end.

(** [resizeOnWindowChange]: the loop over
    [document.getElementsByClassName('parentResize')], that is over the
    wrappers of the resizable panes; the other panes are not visited. *)
Definition resizeOnWindowChange (w : Window) (panes : list Pane) : list Pane :=
  (fun p => if resizable p then resizeOnWindowChange_pane w p else p) <$> panes.

End Resizable.
Export Resizable.

(** ** Pointer sessions *)

Module Session.

(** The [action] object handed to [trackMouseDragPlusAction]. *)
Inductive Action : Type :=
  | ActResize (resizePoint : string)
  | ActDrag.

(** [dragAction(action, mouseDrag)] on the pane the action was created for. *)
Definition dragAction (w : Window) (action : Action) (mouseDrag : MouseDrag)
    (p : Pane) : Pane :=
  match action with
  | ActResize resizePoint => changeElementSizeAndPosition w p resizePoint mouseDrag
  | ActDrag => drag w p mouseDrag
  end.

(** The state kept by [trackMouseDragPlusAction] between two mouse moves:
    the last pointer position [(x1, y1)] and the pane. *)
Record Tracking : Type := mkTracking {
  x1 : Z;
  y1 : Z;
  tracked : Pane
}.

(** The [document.onmousemove] handler installed by
    [trackMouseDragPlusAction], at pointer position [(x2, y2)]. *)
Definition onmousemove (w : Window) (action : Action) (t : Tracking)
    (pointer : Z * Z) : Tracking :=
  let x2 := fst pointer in
  let y2 := snd pointer in
  let mouseDrag := {| md_x := x1 t - x2; md_y := y1 t - y2 |} in
  {| x1 := x2; y1 := y2; tracked := dragAction w action mouseDrag (tracked t) |}.

(** A pointer-delta step: an action of the pane and the mouse movement. *)
Definition Step : Type := Action * MouseDrag.

(** The steps a pane can receive: resize points exist on resizable panes
    only. *)
Definition step (w : Window) (p : Pane) (s : Step) : Pane :=
  match fst s with
  | ActResize _ => if resizable p then dragAction w (fst s) (snd s) p else p
  | ActDrag => dragAction w (fst s) (snd s) p
  end.

(** The pane after each step of a sequence, oldest first. *)
Fixpoint trace (w : Window) (p : Pane) (steps : list Step) : list Pane :=
  match steps with
  | [] => []
  | s :: steps => let p' := step w p s in p' :: trace w p' steps
  end.

End Session.
Export Session.

(** ** minMaxClose.js: full-screen maximize and restore *)

Module FullScreen.

(** The object returned by [getElementSizeAndPosition]: six properties of
    the computed style.  It has no [margin] property. *)
Record ActualSize : Type := mkActualSize {
  as_width : CssLen;
  as_height : CssLen;
  as_top : Z;
  as_left : Z;
  as_gridCol : Z;
  as_gridRow : Z
}.

#[export] Instance ActualSize_eq_dec : EqDecision ActualSize.
Proof. solve_decision. Defined.

(** [getElementSizeAndPosition(e)] where [e] is the wrapper of a resizable
    pane and the pane element otherwise.  Computed widths and heights are
    resolved pixel lengths. *)
Definition getElementSizeAndPosition (w : Window) (p : Pane) : ActualSize :=
  let s := dragTarget p in
  {| as_width := Px (offsetWidth w p);
     as_height := Px (offsetHeight w p);
     as_top := top s;
     as_left := left s;
     as_gridCol := gridTemplateColumns s;
     as_gridRow := gridTemplateRows s |}.

(** [actualSize.margin]: reading a property the object does not have gives
    [undefined], here [None]. *)
Definition as_margin (a : ActualSize) : option Z := None.

(** [style.margin = v]: the style ignores an assignment of [undefined],
    whose text is not a margin, and keeps the value it has. *)
Definition assign_margin (v : option Z) (s : Style) : Style :=
  match v with
  | Some m => set_margin m s
  | None => s
  end.

(** [a || b] on numbers: [a] unless it is [0]. *)
Definition jsOr (a b : Z) : Z := if a =? 0 then b else a.

(** The click handler that [addFullScreenMaximizeFunction] installs on the
    maximize button of [element], on the global [maxStorage]. *)
Definition maxBtn_onclick (w : Window) (element : Pane)
    (maxStorage : gmap string ActualSize) : Pane * gmap string ActualSize :=
  let index := id element in
  let isResizable := resizable element in
  match maxStorage !! index with
  | None =>
    let width :=
      jsOr (innerWidth w) (jsOr (documentElementClientWidth w) (bodyClientWidth w)) in
    let height :=
      jsOr (innerHeight w) (jsOr (documentElementClientHeight w) (bodyClientHeight w)) in
    let newKey := id element in
    let stored := <[newKey := getElementSizeAndPosition w element]> maxStorage in
    if isResizable then
      let element := with_style (set_width (Pct 100)) element in
      let element := with_style (set_height (Pct 100)) element in
      let element := with_parentStyle (set_top 0) element in
      let element := with_parentStyle (set_left 0) element in
      let element := with_parentStyle (set_margin 0) element in
      let element := with_parentStyle (set_gridTemplateRows (height - 6)) element in
      let element := with_parentStyle (set_gridTemplateColumns (width - 6)) element in
      (element, stored)
    else
      let element := with_style (set_top 0) element in
      let element := with_style (set_left 0) element in
      let element := with_style (set_margin 0) element in
      let element := with_style (set_width (Px width)) element in
      let element := with_style (set_height (Px height)) element in
      (element, stored)
  | Some actualSize =>
    let element :=
      if isResizable then
        let element := with_parentStyle (set_top (as_top actualSize)) element in
        let element := with_parentStyle (set_left (as_left actualSize)) element in
        let element := with_parentStyle (assign_margin (as_margin actualSize)) element in
        let element := with_parentStyle (set_gridTemplateRows (as_gridRow actualSize)) element in
        with_parentStyle (set_gridTemplateColumns (as_gridCol actualSize)) element
      else
        let element := with_style (set_top (as_top actualSize)) element in
        let element := with_style (set_left (as_left actualSize)) element in
        let element := with_style (set_width (as_width actualSize)) element in
        let element := with_style (assign_margin (as_margin actualSize)) element in
        with_style (set_height (as_height actualSize)) element in
    (element, delete index maxStorage)
  end.


End FullScreen.
Export FullScreen.

(** ** minMaxClose.js: the minimized items *)

Module Minimized.

(** JavaScript numbers met by the capacity arithmetic.  [undefined] occurs
    only under [>], [<=], [<] and [+ 1], where it behaves as [NaN]. *)
Inductive JsNum : Type :=
  | Num (n : Z)
  | PosInfinity
  | NegInfinity
  | NaN.

(** [n > v], [n <= v] and [v + 1] for an integer [n]. *)
Definition gt_num (n : Z) (v : JsNum) : bool :=
  match v with
  | Num m => n >? m
  | NegInfinity => true
  | PosInfinity | NaN => false
  end.
Definition le_num (n : Z) (v : JsNum) : bool :=
  match v with
  | Num m => n <=? m
  | PosInfinity => true
  | NegInfinity | NaN => false
  end.
Definition succ_num (v : JsNum) : JsNum :=
  match v with
  | Num m => Num (m + 1)
  | _ => v
  end.

(** [Math.floor(a / b)] on integers. *)
Definition floor_div (a b : Z) : JsNum :=
  if b =? 0 then
    if a =? 0 then NaN else if a >? 0 then PosInfinity else NegInfinity
  else Num (a / b).

(** An entry of [minStorage]. *)
Record Template : Type := mkTemplate {
  t_id : string;
  title : string
}.

(** A slot of [minStorage]: a template, or the empty string that [maximize]
    leaves in its place. *)
Inductive Slot : Type :=
  | Entry (t : Template)
  | EmptySlot.

(** [slot.id] and [slot.title]; both are [undefined] on the empty string.  A
    text content of [undefined] is the empty text. *)
Definition slot_id (s : Slot) : option string :=
  match s with
  | Entry t => Some (t_id t)
  | EmptySlot => None
  end.
Definition slot_title (s : Slot) : string :=
  match s with
  | Entry t => title t
  | EmptySlot => ""
  end.

(** [slot == ''] and [slot != '']: an object is never loosely equal to the
    empty string. *)
Definition is_empty_slot (s : Slot) : bool :=
  match s with
  | Entry _ => false
  | EmptySlot => true
  end.

(** A slot that holds a template. *)
Definition live (s : Slot) : Prop := is_empty_slot s = false.

#[export] Instance live_dec (s : Slot) : Decision (live s).
Proof. unfold live. apply _. Defined.

(** Ids of the nodes of the minimize zone: the decimal text of a number
    (['' + count], [children[i].id = i]) or a name. *)
Inductive DomId : Type :=
  | Idx (i : Z)
  | Name (s : string).

#[export] Instance DomId_eq_dec : EqDecision DomId.
Proof. solve_decision. Defined.

(** A minimized representation ([span.minimizedItem]) or a dropdown item
    ([div.dropdownItem]): its id and its text. *)
Record Item : Type := mkItem {
  item_id : DomId;
  item_title : string
}.

(** A child of [#minimizeZone]. *)
Inductive Node : Type :=
  | MinimizedItem (it : Item)
  | DropdownBtn (i : DomId)
  | DropdownList (i : DomId) (items : list Item).

Definition node_id (n : Node) : DomId :=
  match n with
  | MinimizedItem it => item_id it
  | DropdownBtn i => i
  | DropdownList i _ => i
  end.

Definition set_node_id (i : DomId) (n : Node) : Node :=
  match n with
  | MinimizedItem it => MinimizedItem (mkItem i (item_title it))
  | DropdownBtn _ => DropdownBtn i
  | DropdownList _ items => DropdownList i items
  end.

(** Where a node sits: a child of the zone, or an item of the dropdown list
    that is the [k]-th child of the zone. *)
Inductive Loc : Type :=
  | InZone (k : nat)
  | InList (k j : nat).

(** The rendered box of the first element child of the zone, from which
    [getItemCountToFitElementByWidth] measures, and the client width of the
    zone. *)
Record ZoneLayout : Type := mkZoneLayout {
  clientWidth : Z;
  computedWidth : Node -> Z;
  computedMarginLeft : Node -> Z;
  computedMarginRight : Node -> Z
}.

(** The globals of the module, the children of [#minimizeZone], and the
    panes of the document by id. *)
Record State : Type := mkState {
  minStorage : list Slot;
  count : Z;
  elementWidth : option Z;
  dropdown : bool;
  numItems : JsNum;
  minimizeZone : list Node;
  panes : gmap string Pane
}.

Definition set_minStorage (v : list Slot) (st : State) : State :=
  mkState v (count st) (elementWidth st) (dropdown st) (numItems st)
          (minimizeZone st) (panes st).
Definition set_count (v : Z) (st : State) : State :=
  mkState (minStorage st) v (elementWidth st) (dropdown st) (numItems st)
          (minimizeZone st) (panes st).
Definition set_elementWidth (v : option Z) (st : State) : State :=
  mkState (minStorage st) (count st) v (dropdown st) (numItems st)
          (minimizeZone st) (panes st).
Definition set_dropdown (v : bool) (st : State) : State :=
  mkState (minStorage st) (count st) (elementWidth st) v (numItems st)
          (minimizeZone st) (panes st).
Definition set_numItems (v : JsNum) (st : State) : State :=
  mkState (minStorage st) (count st) (elementWidth st) (dropdown st) v
          (minimizeZone st) (panes st).
Definition set_minimizeZone (v : list Node) (st : State) : State :=
  mkState (minStorage st) (count st) (elementWidth st) (dropdown st)
          (numItems st) v (panes st).
Definition set_panes (v : gmap string Pane) (st : State) : State :=
  mkState (minStorage st) (count st) (elementWidth st) (dropdown st)
          (numItems st) (minimizeZone st) v.

(** [array[i]] for a number [i]; [None] is [undefined]. *)
Definition index {A : Type} (l : list A) (i : Z) : option A :=
  if i <? 0 then None else l !! Z.to_nat i.

(** [document.getElementById(i)] for the ids the module looks up itself:
    the first node with that id in document order.  The nodes outside the
    minimize zone are the panes, whose ids are taken not to collide with
    these. *)
Definition find_item (i : DomId) (items : list Item) : option nat :=
  fst <$> list_find (fun it => item_id it = i) items.

Fixpoint getElementById_from (k : nat) (i : DomId) (children : list Node)
    : option Loc :=
  match children with
  | [] => None
  | n :: rest =>
    if decide (node_id n = i) then Some (InZone k)
    else
      match n with
      | DropdownList _ items =>
        match find_item i items with
        | Some j => Some (InList k j)
        | None => getElementById_from (S k) i rest
        end
      | _ => getElementById_from (S k) i rest
      end
  end.

Definition getElementById (i : DomId) (children : list Node) : option Loc :=
  getElementById_from 0 i children.

(** [zone.removeChild(node)]: throws unless [node] is a child of the zone. *)
Definition removeChild (l : option Loc) (children : list Node)
    : option (list Node) :=
  match l with
  | Some (InZone k) =>
    if decide (k < length children)%nat then Some (delete k children) else None
  | _ => None
  end.

(** [node.childElementCount]: the items of a dropdown list; a minimized
    representation holds its one title paragraph; the button holds text
    only. *)
Definition childElementCount (n : Node) : Z :=
  match n with
  | MinimizedItem _ => 1
  | DropdownBtn _ => 0
  | DropdownList _ items => Z.of_nat (length items)
  end.

(** [storeMinimizedElement]: pushes the template of the pane.  The element it
    returns for the user-interface changes is the pane, through its wrapper
    when it is resizable; it is named by the id of the template. *)
Definition storeMinimizedElement (t : Template) (st : State) : State :=
  set_minStorage (minStorage st ++ [Entry t]) st.

(** [deleteDuplicatedItemsMinStorage]: sets the global [count] and pops the
    last entry when its id equals the id of the entry before it. *)
Definition deleteDuplicatedItemsMinStorage (st : State) : bool * State :=
  let count := Z.of_nat (length (minStorage st)) - 1 in
  let st := set_count count st in
  if count >? 0 then
    match index (minStorage st) (count - 1), index (minStorage st) count with
    | Some a, Some b =>
      if decide (slot_id a = slot_id b)
      then (true, set_minStorage (take (Z.to_nat count) (minStorage st)) st)
      else (false, st)
    | _, _ => (false, st)
    end
  else (false, st).

(** [getItemCountToFitElementByWidth(item, element)]; it caches the outer
    width of the item in the global [elementWidth]. *)
Definition getItemCountToFitElementByWidth (lay : ZoneLayout)
    (item : option Node) (st : State) : JsNum * State :=
  match item with
  | Some item =>
    let minAreaWidth := clientWidth lay in
    let width := computedWidth lay item in
    let marginLeft := computedMarginLeft lay item in
    let marginRight := computedMarginRight lay item in
    let elementWidth := width + marginLeft + marginRight in
    (floor_div minAreaWidth elementWidth, set_elementWidth (Some elementWidth) st)
  | None => (NaN, st)
  end.

Definition firstElementChild (children : list Node) : option Node :=
  head children.

(** [deleteMinimizedItems(count, parent)]: [fuel] iterations are left, the
    next id to delete is [i]. *)
Fixpoint deleteMinimizedItems_loop (fuel : nat) (i : Z) (children : list Node)
    : option (list Node) :=
  match fuel with
  | O => Some children
  | S fuel =>
    children ← removeChild (getElementById (Idx i) children) children;
    deleteMinimizedItems_loop fuel (i + 1) children
  end.

(** With a count of [Infinity] the loop runs until [getElementById] finds
    nothing and [removeChild] throws. *)
Definition deleteMinimizedItems (count : JsNum) (children : list Node)
    : option (list Node) :=
  match count with
  | Num c => deleteMinimizedItems_loop (Z.to_nat c) 0 children
  | PosInfinity => None
  | NegInfinity | NaN => Some children
  end.

(** [addDropdownItems(items, dropdown)] on an empty list. *)
Definition addDropdownItems (items : list Slot) : list Item :=
  imap (fun j s => mkItem (Idx (Z.of_nat j)) (slot_title s)) items.

(** [horizontalRepToDropdownList(count, ofArea)]: the button and the list are
    appended to the zone and the list is filled from [minStorage]. *)
Definition horizontalRepToDropdownList (count : JsNum) (st : State)
    : option State :=
  children ← deleteMinimizedItems count (minimizeZone st);
  Some (set_minimizeZone
          (children ++ [DropdownBtn (Name "dropdownBtn");
                        DropdownList (Name "dropdownList")
                                     (addDropdownItems (minStorage st))]) st).

(** Appending an item to the node found as [#dropdownList].  In every state
    that the code builds this node is the dropdown list; another node under
    that id is outside the model. *)
Definition appendItem (it : Item) (n : Node) : option Node :=
  match n with
  | DropdownList i items => Some (DropdownList i (items ++ [it]))
  | _ => None
  end.

(** [element.style.display = 'none'] on the pane, through its wrapper when it
    is resizable. *)
Definition hide (id : string) (st : State) : State :=
  set_panes (alter (with_dragTarget (set_display DisplayNone)) id (panes st)) st.

(** [minimizeUI(element)]. *)
Definition minimizeUI (lay : ZoneLayout) (element : string) (st : State)
    : option State :=
  st ←
    (if dropdown st then
       (* Add minimized item to the dropdown *)
       match getElementById (Name "dropdownList") (minimizeZone st) with
       | Some (InZone k) =>
         slot ← index (minStorage st) (count st);
         n ← minimizeZone st !! k;
         n ← appendItem (mkItem (Idx (count st)) (slot_title slot)) n;
         Some (set_minimizeZone (<[k := n]> (minimizeZone st)) st)
       | _ => None
       end
     else
       let '(n, st) :=
         getItemCountToFitElementByWidth lay
           (firstElementChild (minimizeZone st)) st in
       let st := set_numItems n st in
       if gt_num (Z.of_nat (length (minStorage st))) (numItems st) then
         (* Deal with minimizeArea overflow *)
         st ← horizontalRepToDropdownList (numItems st) st;
         Some (set_dropdown true st)
       else
         slot ← index (minStorage st) (count st);
         let minRep := mkItem (Idx (count st)) (slot_title slot) in
         Some (set_minimizeZone (minimizeZone st ++ [MinimizedItem minRep]) st));
  (* Hide original element *)
  Some (hide element st).

(** [minimize]: the handler of the minimize button and of the double click,
    for the pane described by the template [t]. *)
Definition minimize (lay : ZoneLayout) (t : Template) (st : State)
    : option State :=
  let st := storeMinimizedElement t st in
  let '(duplicated, st) := deleteDuplicatedItemsMinStorage st in
  if duplicated then Some st else minimizeUI lay (t_id t) st.

(** The update of [minStorage] in [fromDropdownToHorizontalMinimized]: the
    non-empty slots are copied towards the front, [count] counts them, and
    the array is cut to [count].  [i] is the index read next. *)
Fixpoint compact_loop (fuel : nat) (i : nat) (count : nat) (arr : list Slot)
    : list Slot * nat :=
  match fuel with
  | O => (arr, count)
  | S fuel =>
    match arr !! i with
    | Some (Entry t) =>
      compact_loop fuel (S i) (S count)
                   (<[count := Entry (mkTemplate (t_id t) (title t))]> arr)
    | _ => compact_loop fuel (S i) count arr
    end
  end.

Definition compact (arr : list Slot) : list Slot :=
  let '(arr, count) := compact_loop (length arr) 0 0 arr in
  take count arr.

(** The update of [minStorage] at the end of [maximize]: for [j] from [0] to
    [len - 1] the slot at [len - 1 - j] is spliced out when it is empty.
    [fuel] is [len - j]. *)
Fixpoint splice_loop (fuel : nat) (arr : list Slot) : list Slot :=
  match fuel with
  | O => arr
  | S fuel =>
    match arr !! fuel with
    | Some EmptySlot => splice_loop fuel (delete fuel arr)
    | _ => splice_loop fuel arr
    end
  end.

(** The representations that [fromDropdownToHorizontalMinimized] creates. *)
Definition horizontalReps (items : list Slot) : list Node :=
  imap (fun j s => MinimizedItem (mkItem (Idx (Z.of_nat j)) (slot_title s))) items.

(** [fromDropdownToHorizontalMinimized(ddList)] for a child [ddList] of the
    zone at position [k]: its previous sibling and then the node itself are
    removed from the zone. *)
Definition fromDropdownToHorizontalMinimized (k : nat) (st : State)
    : option State :=
  match k with
  | O => None
  | S k' =>
    children ← removeChild (Some (InZone k')) (minimizeZone st);
    children ← removeChild (Some (InZone k')) children;
    let st := set_minimizeZone children st in
    let st := set_dropdown false st in
    let st := set_minStorage (compact (minStorage st)) st in
    Some (set_minimizeZone (minimizeZone st ++ horizontalReps (minStorage st)) st)
  end.

(** The node at a location and the zone without it. *)
Definition item_at (l : Loc) (children : list Node) : option Item :=
  match l with
  | InZone k =>
    match children !! k with
    | Some (MinimizedItem it) => Some it
    | _ => None
    end
  | InList k j =>
    match children !! k with
    | Some (DropdownList _ items) => items !! j
    | _ => None
    end
  end.

Definition remove_at (l : Loc) (children : list Node) : list Node :=
  match l with
  | InZone k => delete k children
  | InList k j =>
    match children !! k with
    | Some (DropdownList i items) => <[k := DropdownList i (delete j items)]> children
    | _ => children
    end
  end.

(** [parseInt(this.id)]. *)
Definition parseInt_id (i : DomId) : option Z :=
  match i with
  | Idx i => Some i
  | Name _ => None
  end.

(** The pane shown again: [display = 'grid'] on the wrapper of a resizable
    pane, [display = 'block'] on the element otherwise. *)
Definition show (p : Pane) : Pane :=
  if resizable p then with_parentStyle (set_display DisplayGrid) p
  else with_style (set_display DisplayBlock) p.

(** [maximize], the click handler of a minimized representation or of a
    dropdown item; [this] is the place of the clicked item. *)
Definition maximize (this : Loc) (st : State) : option State :=
  it ← item_at this (minimizeZone st);
  (* Delete representation *)
  let st := set_minimizeZone (remove_at this (minimizeZone st)) st in
  i ← parseInt_id (item_id it);
  slot ← index (minStorage st) i;
  id ← slot_id slot;
  element ← panes st !! id;
  let st := set_panes (<[id := show element]> (panes st)) st in
  (* Empty index on minimizedStorage *)
  let st := set_minStorage (<[Z.to_nat i := EmptySlot]> (minStorage st)) st in
  (* Change from dropdownList to horizontal minimized representations *)
  st ←
    (if dropdown st then
       match getElementById (Name "dropdownList") (minimizeZone st) with
       | Some (InZone k) =>
         ddList ← minimizeZone st !! k;
         if le_num (childElementCount ddList) (numItems st)
         then fromDropdownToHorizontalMinimized k st
         else Some st
       | _ => None
       end
     else Some st);
  (* Update minStorage *)
  if dropdown st then Some st
  else
    if Z.of_nat (length (minimizeZone st)) =? 0 then Some (set_minStorage [] st)
    else
      let st :=
        set_minimizeZone
          (imap (fun i n => set_node_id (Idx (Z.of_nat i)) n) (minimizeZone st)) st in
      Some (set_minStorage (splice_loop (length (minStorage st)) (minStorage st)) st).

(** [updateMinimizedItemsOnWindowChange]. *)
Definition updateMinimizedItemsOnWindowChange (lay : ZoneLayout) (st : State)
    : option State :=
  if dropdown st then
    let st :=
      set_numItems
        (match elementWidth st with
         | Some ew => floor_div (clientWidth lay) ew
         | None => NaN
         end) st in
    if le_num (Z.of_nat (length (minStorage st))) (numItems st) then
      (* Horizontal minimized representations *)
      _ ← firstElementChild (minimizeZone st);
      _ ← minimizeZone st !! 1%nat;
      st ← fromDropdownToHorizontalMinimized 1 st;
      Some (set_dropdown false st)
    else Some st
  else
    let '(n, st) :=
      getItemCountToFitElementByWidth lay (firstElementChild (minimizeZone st)) st in
    let st := set_numItems n st in
    if gt_num (Z.of_nat (length (minStorage st))) (numItems st) then
      (* Deal with minimizeArea overflow *)
      st ← horizontalRepToDropdownList (succ_num (numItems st)) st;
      Some (set_dropdown true st)
    else Some st.

End Minimized.
Export Minimized.

(** ** Predicates of the design document *)

Module Props.

(** The rectangle of a pane is the offset box of the element that carries its
    position: [x = offsetLeft], [y = offsetTop], [offsetWidth] wide and
    [offsetHeight] high.  [contained] is the containment invariant of the
    design document on it. *)
Definition contained (w : Window) (p : Pane) : Prop :=
  0 <= offsetLeft (dragTarget p) /\
  0 <= offsetTop (dragTarget p) /\
  offsetLeft (dragTarget p) + offsetWidth w p <= bodyClientWidth w /\
  offsetTop (dragTarget p) + offsetHeight w p <= bodyClientHeight w.

(** The same bounds on the rectangle without the resize points: for a
    resizable pane the width and the height are those of the element, the
    middle tracks of the wrapper. *)
Definition innerWidth_of (w : Window) (p : Pane) : Z :=
  if resizable p then gridTemplateColumns (parentStyle p) else offsetWidth w p.
Definition innerHeight_of (w : Window) (p : Pane) : Z :=
  if resizable p then gridTemplateRows (parentStyle p) else offsetHeight w p.

Definition inner_contained (w : Window) (p : Pane) : Prop :=
  0 <= offsetLeft (dragTarget p) /\
  0 <= offsetTop (dragTarget p) /\
  offsetLeft (dragTarget p) + innerWidth_of w p <= bodyClientWidth w /\
  offsetTop (dragTarget p) + innerHeight_of w p <= bodyClientHeight w.

(** The inline size of a resizable element agrees with the tracks of its
    wrapper: [initialResizeCssProperties] writes both from the same value and
    every resize step writes both. *)
Definition consistent (p : Pane) : Prop :=
  resizable p = true ->
  width (style p) = Px (gridTemplateColumns (parentStyle p)) /\
  height (style p) = Px (gridTemplateRows (parentStyle p)).

(** The signed change of size of a resize step: the mouse drag, negated in
    the right zone ([1]) for the width and in the bottom zone ([3]) for the
    height. *)
Definition growthX (zone mouseDrag : Z) : Z :=
  if zone =? 1 then - mouseDrag else mouseDrag.
Definition growthY (zone mouseDrag : Z) : Z :=
  if zone =? 3 then - mouseDrag else mouseDrag.

(** The minimized representation with display identifier [j] and text
    [s]. *)
Definition rep (j : nat) (s : string) : Node :=
  MinimizedItem (mkItem (Idx (Z.of_nat j)) s).

(** The templates held by the slots of [minStorage], in order. *)
Definition templates (slots : list Slot) : list Template :=
  omap (fun s => match s with Entry t => Some t | EmptySlot => None end) slots.

(** The dropdown items of the live slots: each carries the index of its
    slot. *)
Definition live_items (slots : list Slot) : list Item :=
  omap (fun item => item)
    (imap (fun j s =>
             match s with
             | Entry t => Some (mkItem (Idx (Z.of_nat j)) (title t))
             | EmptySlot => None
             end) slots).

(** Every minimized pane is an element of the document. *)
Definition registered (ts : list Template) (st : State) : Prop :=
  Forall (fun t => is_Some (panes st !! t_id t)) ts.

(** Strip mode with the registry [ts]: [minStorage] holds exactly these
    templates, the zone holds one representation per entry, in order, the
    [j]-th with identifier [j]. *)
Definition strip_state (ts : list Template) (st : State) : Prop :=
  dropdown st = false /\
  minStorage st = (Entry <$> ts) /\
  minimizeZone st = imap (fun j t => rep j (title t)) ts /\
  registered ts st.

(** Dropdown mode with the slots [slots]: the zone holds the toggle button
    and the list, and the list holds one item per live slot, in order, with
    the index of the slot as identifier. *)
Definition dropdown_state (slots : list Slot) (st : State) : Prop :=
  dropdown st = true /\
  minStorage st = slots /\
  minimizeZone st =
    [DropdownBtn (Name "dropdownBtn");
     DropdownList (Name "dropdownList") (live_items slots)] /\
  registered (templates slots) st.

(** The item capacity that the handlers compute in strip mode. *)
Definition capacity (lay : ZoneLayout) (st : State) : JsNum :=
  fst (getItemCountToFitElementByWidth lay (firstElementChild (minimizeZone st)) st).

(** The new entry is not a repetition of the last one. *)
Definition not_repeated (ts : list Template) (t : Template) : Prop :=
  forall t', last ts = Some t' -> t_id t' <> t_id t.

End Props.
Export Props.

(** ** The containment pass, part by part *)

Module WindowPass.

(** The width adjustments and the height adjustments of one iteration of
    [resizeOnWindowChange], in the order of the source:
    [resizeOnWindowChange_pane] is the second after the first. *)
Definition windowPassWidth (w : Window) (p : Pane) : Pane :=
  match parseIntSlice2 (width (style p)) with
  | None => p
  | Some parsed =>
    if offsetLeft (parentStyle p) + (parsed + 6) >? bodyClientWidth w then
      if bodyClientWidth w - offsetLeft (parentStyle p) - 6 >=? 5 then
        with_style (set_width (Px (bodyClientWidth w - offsetLeft (parentStyle p) - 6)))
          (with_parentStyle
             (set_gridTemplateColumns (bodyClientWidth w - offsetLeft (parentStyle p) - 6)) p)
      else with_parentStyle (set_left (bodyClientWidth w - 5 - 6)) p
    else p
  end.

Definition windowPassHeight (w : Window) (p : Pane) : Pane :=
  match parseIntSlice2 (height (style p)) with
  | None => p
  | Some parsed =>
    if offsetTop (parentStyle p) + (parsed + 6) >? bodyClientHeight w then
      if bodyClientHeight w - offsetTop (parentStyle p) - 6 >=? 5 then
        with_style (set_height (Px (bodyClientHeight w - offsetTop (parentStyle p) - 6)))
          (with_parentStyle
             (set_gridTemplateRows (bodyClientHeight w - offsetTop (parentStyle p) - 6)) p)
      else
        if bodyClientHeight w - 5 - 6 >=? 0
        then with_parentStyle (set_top (bodyClientHeight w - 5 - 6)) p
        else p
    else p
  end.

End WindowPass.
Export WindowPass.

(** ** Registration of a resizable pane *)

Module Registration.

(** What [getComputedStyle(element)] gives [initialResizeCssProperties]: the
    resolved pixel values of [width], [height], [top] and [left]. *)
Record Computed : Type := mkComputed {
  c_width : Z;
  c_height : Z;
  c_top : Z;
  c_left : Z
}.

(** The inline style of an element that [document.createElement] has just
    made. *)
Definition createdStyle : Style := mkStyle 0 0 0 Auto Auto 0 0 DisplayInitial.

(** [initialResizeCssProperties(element, parent)].  A computed width of
    ['0px'] is replaced by ['200px'] and a computed height of ['0px'] by
    ['150px']. *)
Definition initialResizeCssProperties (computed : Computed) (p : Pane) : Pane :=
  let w := if c_width computed =? 0 then 200 else c_width computed in
  let h := if c_height computed =? 0 then 150 else c_height computed in
  let p := with_parentStyle (set_top (c_top computed)) p in
  let p := with_parentStyle (set_left (c_left computed)) p in
  let p := with_parentStyle (set_gridTemplateRows h) p in
  let p := with_parentStyle (set_gridTemplateColumns w) p in
  let p := with_style (set_top 0) p in
  let p := with_style (set_left 0) p in
  let p := with_style (set_width (Px w)) p in
  with_style (set_height (Px h)) p.

(** [addResizePoints(element, parent)]: the initial properties, then the
    eight points of [resizePoints], each with its mouse-down handler. *)
Definition addResizePoints (computed : Computed) (p : Pane) : Pane :=
  initialResizeCssProperties computed p.

(** [resizable(element)]: the element gets the class ['resizable'] and a
    new parent of class ['parentResize'], then the resize points.
    [computed] is the computed style of the element under its new parent. *)
Definition resizable (computed : Computed) (element : Pane) : Pane :=
  addResizePoints computed (mkPane (id element) true (style element) createdStyle).

End Registration.

(** ** Bringing a pane to the front *)

Module StackOrder.

(** The values of [style.zIndex] that the code writes. *)
Inductive ZIndex : Type :=
  | ZInherit
  | ZNum (n : Z).

#[export] Instance ZIndex_eq_dec : EqDecision ZIndex.
Proof. solve_decision. Defined.

(** An element of class ['interactive'] with the inline [zIndex] of the
    element and of its parent. *)
Record Stacked : Type := mkStacked {
  pane : Pane;
  zIndex : ZIndex;
  parentZIndex : ZIndex
}.

Definition set_zIndex (v : ZIndex) (e : Stacked) : Stacked :=
  mkStacked (pane e) v (parentZIndex e).
Definition set_parentZIndex (v : ZIndex) (e : Stacked) : Stacked :=
  mkStacked (pane e) (zIndex e) v.

(** [changeStackOrder], the mouse-down handler of an interactive element;
    [this] is the place of the element in
    [document.getElementsByClassName('interactive')]. *)
Definition changeStackOrder (this : nat) (all : list Stacked) : list Stacked :=
  imap (fun i e =>
          if decide (i = this) then
            if resizable (pane e) then set_parentZIndex (ZNum 2) e
            else set_zIndex (ZNum 2) e
          else
            if resizable (pane e) then set_parentZIndex (ZNum 1) e
            else set_zIndex ZInherit e) all.

End StackOrder.
Export StackOrder.

(** ** The pointer events of a document *)

Module Pointer.

(** The closure installed as [document.onmousemove] by
    [trackMouseDragPlusAction] ([drag] and [resize] in the separate builds):
    the action, the pane it was created for, and the last pointer position.
    [document.onmouseup] is [dragMouseStop] exactly while it is installed. *)
Record Handler : Type := mkHandler {
  h_action : Action;
  h_target : string;
  h_x1 : Z;
  h_y1 : Z
}.

Record Document : Type := mkDocument {
  handler : option Handler;
  elements : gmap string Pane
}.

(** A mouse-down on the drag point ([ActDrag]) or on the resize point of a
    class name ([ActResize]) of the pane [target], with [event.which] and
    the pointer position; a mouse-move; a mouse-up. *)
Inductive Event : Type :=
  | MouseDown (target : string) (handle : Action) (which clientX clientY : Z)
  | MouseMove (clientX clientY : Z)
  | MouseUp.

Definition trackMouseDragPlusAction (action : Action) (target : string)
    (clientX clientY : Z) (d : Document) : Document :=
  mkDocument (Some (mkHandler action target clientX clientY)) (elements d).

Definition dragMouseStop (d : Document) : Document :=
  mkDocument None (elements d).

(** The mouse-down handler of a handle.  The handle exists on a pane of the
    document, a resize point on a resizable pane only; every pane is taken
    to have a drag point, as in [step]. *)
Definition onmousedown (target : string) (handle : Action)
    (which clientX clientY : Z) (d : Document) : Document :=
  match elements d !! target with
  | Some p =>
    if match handle with ActResize _ => resizable p | ActDrag => true end then
      if which =? 1 then trackMouseDragPlusAction handle target clientX clientY d
      else d
    else d
  | None => d
  end.

(** The document after an event. *)
Definition dispatch (w : Window) (d : Document) (e : Event) : Document :=
  match e with
  | MouseDown target handle which clientX clientY =>
    onmousedown target handle which clientX clientY d
  | MouseMove clientX clientY =>
    match handler d with
    | Some h =>
      match elements d !! h_target h with
      | Some p =>
        let t :=
          onmousemove w (h_action h) (mkTracking (h_x1 h) (h_y1 h) p)
                      (clientX, clientY) in
        mkDocument (Some (mkHandler (h_action h) (h_target h) (x1 t) (y1 t)))
                   (<[h_target h := tracked t]> (elements d))
      | None => d   (* no pane is ever removed from [elements] *)
      end
    | None => d
    end
  | MouseUp =>
    match handler d with
    | Some _ => dragMouseStop d
    | None => d
    end
  end.

Definition run (w : Window) (d : Document) (events : list Event) : Document :=
  foldl (dispatch w) d events.

End Pointer.
Export Pointer.

(** ** Further predicates *)

Module MoreProps.

(** The pane moved by [(dx, dy)]. *)
Definition translate (dx dy : Z) (p : Pane) : Pane :=
  with_dragTarget (fun s => set_top (top s + dy) (set_left (left s + dx) s)) p.

(** A press of the primary button. *)
Definition primary_press (e : Event) : Prop :=
  match e with
  | MouseDown _ _ which _ _ => which = 1
  | _ => False
  end.

(** A press of the primary button on a handle of the pane [j]. *)
Definition presses (j : string) (e : Event) : Prop :=
  match e with
  | MouseDown target _ which _ _ => which = 1 /\ target = j
  | _ => False
  end.

(** The inline [zIndex] that positions a pane in the stack: that of the
    wrapper for a resizable pane, that of the element otherwise. *)
Definition stackLevel (e : Stacked) : ZIndex :=
  if resizable (pane e) then parentZIndex e else zIndex e.

(** A resize handler is installed for a resizable pane only. *)
Definition handler_ok (d : Document) : Prop :=
  match handler d with
  | Some h =>
    forall c p, h_action h = ActResize c ->
      elements d !! h_target h = Some p -> resizable p = true
  | None => True
  end.

End MoreProps.
Export MoreProps.

(** ** Proofs: moving a pane *)

Ltac destruct_tests :=
  repeat match goal with
  | |- context [if ?b then _ else _] => destruct b eqn:?
  end.

Ltac lia_tests :=
  repeat match goal with
  | H : (_ <? _) = true |- _ => apply Z.ltb_lt in H
  | H : (_ <? _) = false |- _ => apply Z.ltb_ge in H
  | H : (_ >? _) = true |- _ => apply Z.gtb_gt in H
  | H : (_ >? _) = false |- _ => rewrite Z.gtb_ltb in H; apply Z.ltb_ge in H
  | H : (_ >=? _) = true |- _ => rewrite Z.geb_leb in H; apply Z.leb_le in H
  | H : (_ >=? _) = false |- _ => rewrite Z.geb_leb in H; apply Z.leb_gt in H
  | H : (_ <=? _) = true |- _ => apply Z.leb_le in H
  | H : (_ <=? _) = false |- _ => apply Z.leb_gt in H
  | H : (_ =? _) = true |- _ => apply Z.eqb_eq in H
  | H : (_ =? _) = false |- _ => apply Z.eqb_neq in H
  | H : _ && _ = true |- _ => apply andb_true_iff in H; destruct H
  | H : _ && _ = false |- _ => apply andb_false_iff in H; destruct H
  | H : _ || _ = true |- _ => apply orb_true_iff in H; destruct H
  | H : _ || _ = false |- _ => apply orb_false_iff in H; destruct H
  end.

(** The position that [getDragNewPosition] returns, axis by axis. *)
Lemma getDragNewPosition_x (w : Window) (p : Pane) (d : MouseDrag) :
  let nx := offsetLeft (dragTarget p) - md_x d in
  x (getDragNewPosition w p d) =
    if (nx <? 0) || (nx + offsetWidth w p >? bodyClientWidth w)
    then offsetLeft (dragTarget p) else nx.
Proof.
  unfold getDragNewPosition, preventDragOutsideScreen; simpl.
  destruct_tests; simpl in *; lia_tests; try reflexivity; try lia.
Qed.

Lemma getDragNewPosition_y (w : Window) (p : Pane) (d : MouseDrag) :
  let ny := offsetTop (dragTarget p) - md_y d in
  y (getDragNewPosition w p d) =
    if (ny <? 0) || (ny + offsetHeight w p >? bodyClientHeight w)
    then offsetTop (dragTarget p) else ny.
Proof.
  unfold getDragNewPosition, preventDragOutsideScreen; simpl.
  destruct_tests; simpl in *; lia_tests; try reflexivity; try lia.
Qed.

(** A drag step writes the returned position to the dragged element. *)
Lemma drag_dragTarget (w : Window) (p : Pane) (d : MouseDrag) :
  dragTarget (drag w p d) =
    set_top (y (getDragNewPosition w p d))
      (set_left (x (getDragNewPosition w p d)) (dragTarget p)).
Proof.
  unfold drag, dragTarget, with_dragTarget. destruct (resizable p) eqn:E; simpl; rewrite ?E; reflexivity.
Qed.

Lemma drag_resizable (w : Window) (p : Pane) (d : MouseDrag) :
  resizable (drag w p d) = resizable p.
Proof. unfold drag, with_dragTarget. destruct (resizable p) eqn:E; simpl; exact E. Qed.

Lemma drag_offsetWidth (w : Window) (p : Pane) (d : MouseDrag) :
  offsetWidth w (drag w p d) = offsetWidth w p.
Proof.
  unfold offsetWidth. rewrite drag_resizable.
  unfold drag, with_dragTarget. destruct (resizable p); reflexivity.
Qed.

Lemma drag_offsetHeight (w : Window) (p : Pane) (d : MouseDrag) :
  offsetHeight w (drag w p d) = offsetHeight w p.
Proof.
  unfold offsetHeight. rewrite drag_resizable.
  unfold drag, with_dragTarget. destruct (resizable p); reflexivity.
Qed.

(** C2.  For every drag step, with [nx] and [ny] the coordinates obtained by
    applying the delta: when the moved rectangle would cross the left or the
    right edge of the viewport the committed [left] is exactly the [left]
    before the step, and otherwise it is [nx], the full movement, whatever
    happens on the other axis; the same holds for [top] against the top and
    bottom edges.  The committed position is the one [getDragNewPosition]
    returns. *)
Theorem drag_rejects_offending_axis (w : Window) (p : Pane) (d : MouseDrag) :
  let t := dragTarget p in
  let t' := dragTarget (drag w p d) in
  let nx := left t - md_x d in
  let ny := top t - md_y d in
  left t' = x (getDragNewPosition w p d) /\
  top t' = y (getDragNewPosition w p d) /\
  (nx < 0 \/ nx + offsetWidth w p > bodyClientWidth w -> left t' = left t) /\
  (0 <= nx /\ nx + offsetWidth w p <= bodyClientWidth w -> left t' = nx) /\
  (ny < 0 \/ ny + offsetHeight w p > bodyClientHeight w -> top t' = top t) /\
  (0 <= ny /\ ny + offsetHeight w p <= bodyClientHeight w -> top t' = ny).
Proof.
  intros t t' nx ny. subst t'. rewrite drag_dragTarget.
  assert (Hx := getDragNewPosition_x w p d).
  assert (Hy := getDragNewPosition_y w p d).
  unfold offsetLeft, offsetTop in Hx, Hy. fold t in Hx, Hy. fold nx in Hx. fold ny in Hy.
  cbn [left top set_top set_left]. simpl in Hx, Hy.
  rewrite Hx, Hy.
  repeat split; intros; destruct_tests; lia_tests; lia.
Qed.

(** C10.  A drag step leaves the width and the height of the pane as they
    were, in the style of the element, in the tracks of its wrapper and in
    the offset box, for every pane and every pointer delta, rejected or not:
    putting [left] and [top] of the dragged element back gives the pane
    before the step. *)
Theorem drag_writes_position_only (w : Window) (p : Pane) (d : MouseDrag) :
  let p' := drag w p d in
  width (style p') = width (style p) /\
  height (style p') = height (style p) /\
  width (dragTarget p') = width (dragTarget p) /\
  height (dragTarget p') = height (dragTarget p) /\
  gridTemplateColumns (parentStyle p') = gridTemplateColumns (parentStyle p) /\
  gridTemplateRows (parentStyle p') = gridTemplateRows (parentStyle p) /\
  offsetWidth w p' = offsetWidth w p /\
  offsetHeight w p' = offsetHeight w p /\
  with_dragTarget
    (fun s => set_top (top (dragTarget p)) (set_left (left (dragTarget p)) s)) p' = p.
Proof.
  intros p'. subst p'.
  rewrite drag_offsetWidth, drag_offsetHeight, drag_dragTarget.
  unfold drag, with_dragTarget, dragTarget.
  destruct p as [i r [t l m wd h gr gc ds] [pt pl pm pw ph pgr pgc pds]].
  destruct r; simpl; repeat split; reflexivity.
Qed.

(** ** Proofs: resizing a pane *)

(** The horizontal step in closed form, on a pane whose inline width parses
    to [n]. *)
Lemma changeHorizontalMeasures_spec (w : Window) (p : Pane) (d z n : Z) :
  parseIntSlice2 (width (style p)) = Some n ->
  let nw := n + growthX z d in
  changeHorizontalMeasures w p d (Some z) =
    if (z =? 1) && (offsetLeft (parentStyle p) + nw + 6 >? bodyClientWidth w) then p
    else if nw <? 5 then p
    else if z =? 0 then
      if offsetLeft (parentStyle p) - d <? 0 then p
      else with_parentStyle (set_gridTemplateColumns nw)
             (with_style (set_width (Px nw))
                (with_parentStyle (set_left (offsetLeft (parentStyle p) - d)) p))
    else with_parentStyle (set_gridTemplateColumns nw)
           (with_style (set_width (Px nw)) p).
Proof.
  intros Hn nw. subst nw. unfold changeHorizontalMeasures, growthX. rewrite Hn.
  destruct (z =? 1) eqn:E1; destruct (z =? 0) eqn:E0; lia_tests; subst; simpl;
    try lia; destruct_tests; lia_tests; try reflexivity; try lia.
Qed.

Lemma changeVerticalMeasures_spec (w : Window) (p : Pane) (d z n : Z) :
  parseIntSlice2 (height (style p)) = Some n ->
  let nh := n + growthY z d in
  changeVerticalMeasures w p d (Some z) =
    if (z =? 3) && (offsetTop (parentStyle p) + nh + 6 >? bodyClientHeight w) then p
    else if nh <? 5 then p
    else if z =? 2 then
      if offsetTop (parentStyle p) - d <? 0 then p
      else with_parentStyle (set_gridTemplateRows nh)
             (with_style (set_height (Px nh))
                (with_parentStyle (set_top (offsetTop (parentStyle p) - d)) p))
    else with_parentStyle (set_gridTemplateRows nh)
           (with_style (set_height (Px nh)) p).
Proof.
  intros Hn nh. subst nh. unfold changeVerticalMeasures, growthY. rewrite Hn.
  destruct (z =? 3) eqn:E3; destruct (z =? 2) eqn:E2; lia_tests; subst; simpl;
    try lia; destruct_tests; lia_tests; try reflexivity; try lia.
Qed.

(** Without a parsed size ([NaN]) or without a zone nothing is written. *)
Lemma changeHorizontalMeasures_NaN (w : Window) (p : Pane) (d : Z) (zone : option Z) :
  parseIntSlice2 (width (style p)) = None ->
  changeHorizontalMeasures w p d zone = p.
Proof. intros H. unfold changeHorizontalMeasures. rewrite H. destruct zone; reflexivity. Qed.

Lemma changeVerticalMeasures_NaN (w : Window) (p : Pane) (d : Z) (zone : option Z) :
  parseIntSlice2 (height (style p)) = None ->
  changeVerticalMeasures w p d zone = p.
Proof. intros H. unfold changeVerticalMeasures. rewrite H. destruct zone; reflexivity. Qed.

(** The zones of the resize points. *)
Lemma horizontal_zone_range (rp : string) (z : Z) :
  getHorizontalResizePointZone rp = Some z -> z = 0 \/ z = 1.
Proof.
  unfold getHorizontalResizePointZone. destruct_tests; intros [= <-]; auto.
Qed.

Lemma vertical_zone_range (rp : string) (z : Z) :
  getVerticalResizePointZone rp = Some z -> z = 2 \/ z = 3.
Proof.
  unfold getVerticalResizePointZone. destruct_tests; intros [= <-]; auto.
Qed.

(** Each step touches its own axis only. *)
Lemma changeVerticalMeasures_horizontal (w : Window) (p : Pane) (d : Z) (zone : option Z) :
  let p' := changeVerticalMeasures w p d zone in
  width (style p') = width (style p) /\
  left (parentStyle p') = left (parentStyle p) /\
  gridTemplateColumns (parentStyle p') = gridTemplateColumns (parentStyle p) /\
  resizable p' = resizable p.
Proof.
  unfold changeVerticalMeasures. destruct zone; [|auto].
  destruct (parseIntSlice2 _); [|auto].
  destruct_tests; simpl; auto.
Qed.

Lemma changeHorizontalMeasures_vertical (w : Window) (p : Pane) (d : Z) (zone : option Z) :
  let p' := changeHorizontalMeasures w p d zone in
  height (style p') = height (style p) /\
  top (parentStyle p') = top (parentStyle p) /\
  gridTemplateRows (parentStyle p') = gridTemplateRows (parentStyle p) /\
  resizable p' = resizable p.
Proof.
  unfold changeHorizontalMeasures. destruct zone; [|auto].
  destruct (parseIntSlice2 _); [|auto].
  destruct_tests; simpl; auto.
Qed.

(** What a horizontal step can do: nothing on its axis, or commit the new
    width, which is then at least [5]. *)
Lemma changeHorizontalMeasures_cases (w : Window) (p : Pane) (d : Z) (zone : option Z) :
  let p' := changeHorizontalMeasures w p d zone in
  (width (style p') = width (style p) /\
   left (parentStyle p') = left (parentStyle p) /\
   gridTemplateColumns (parentStyle p') = gridTemplateColumns (parentStyle p)) \/
  (exists z n, zone = Some z /\ parseIntSlice2 (width (style p)) = Some n /\
     5 <= n + growthX z d /\
     width (style p') = Px (n + growthX z d) /\
     gridTemplateColumns (parentStyle p') = n + growthX z d).
Proof.
  intros p'. subst p'. destruct zone as [z|]; [|left; auto].
  destruct (parseIntSlice2 (width (style p))) as [n|] eqn:Hn.
  - rewrite (changeHorizontalMeasures_spec w p d z n Hn).
    destruct_tests; lia_tests; try (left; simpl; auto; fail);
      right; exists z, n; simpl; repeat split; auto; lia.
  - rewrite changeHorizontalMeasures_NaN by assumption. left; auto.
Qed.

Lemma changeVerticalMeasures_cases (w : Window) (p : Pane) (d : Z) (zone : option Z) :
  let p' := changeVerticalMeasures w p d zone in
  (height (style p') = height (style p) /\
   top (parentStyle p') = top (parentStyle p) /\
   gridTemplateRows (parentStyle p') = gridTemplateRows (parentStyle p)) \/
  (exists z n, zone = Some z /\ parseIntSlice2 (height (style p)) = Some n /\
     5 <= n + growthY z d /\
     height (style p') = Px (n + growthY z d) /\
     gridTemplateRows (parentStyle p') = n + growthY z d).
Proof.
  intros p'. subst p'. destruct zone as [z|]; [|left; auto].
  destruct (parseIntSlice2 (height (style p))) as [n|] eqn:Hn.
  - rewrite (changeVerticalMeasures_spec w p d z n Hn).
    destruct_tests; lia_tests; try (left; simpl; auto; fail);
      right; exists z, n; simpl; repeat split; auto; lia.
  - rewrite changeVerticalMeasures_NaN by assumption. left; auto.
Qed.

(** A step whose new size is below [5] writes nothing on its axis. *)
Lemma changeHorizontalMeasures_below_min (w : Window) (p : Pane) (d z n : Z) :
  parseIntSlice2 (width (style p)) = Some n ->
  n + growthX z d < 5 ->
  changeHorizontalMeasures w p d (Some z) = p.
Proof.
  intros Hn Hlt. rewrite (changeHorizontalMeasures_spec w p d z n Hn).
  destruct_tests; lia_tests; try reflexivity; lia.
Qed.

Lemma changeVerticalMeasures_below_min (w : Window) (p : Pane) (d z n : Z) :
  parseIntSlice2 (height (style p)) = Some n ->
  n + growthY z d < 5 ->
  changeVerticalMeasures w p d (Some z) = p.
Proof.
  intros Hn Hlt. rewrite (changeVerticalMeasures_spec w p d z n Hn).
  destruct_tests; lia_tests; try reflexivity; lia.
Qed.

(** The eight resize points and their zones. *)
Lemma resizePoints_zones :
  getResizePointZone <$> resizePoints =
    [(Some 0, None); (Some 0, Some 2); (None, Some 2); (Some 1, Some 2);
     (Some 1, None); (Some 1, Some 3); (None, Some 3); (Some 0, Some 3)].
Proof. reflexivity. Qed.

(** C3.  For every resize step, at any resize point and for any delta: a
    width or a height that the step changes is a pixel length of at least
    [5], in the style of the element and in the track of the wrapper, so a
    pane at least [5] wide or high stays so; and when the width computed by
    the step (the parsed width plus the signed delta of the zone) is below
    [5], the width, the left offset and the column track are those before
    the step, and likewise for the height, the top offset and the row
    track. *)
Theorem resize_never_below_min_size (w : Window) (p : Pane) (rp : string) (d : MouseDrag) :
  let p' := changeElementSizeAndPosition w p rp d in
  (width (style p') <> width (style p) ->
     exists n, width (style p') = Px n /\ 5 <= n) /\
  (gridTemplateColumns (parentStyle p') <> gridTemplateColumns (parentStyle p) ->
     5 <= gridTemplateColumns (parentStyle p')) /\
  (height (style p') <> height (style p) ->
     exists n, height (style p') = Px n /\ 5 <= n) /\
  (gridTemplateRows (parentStyle p') <> gridTemplateRows (parentStyle p) ->
     5 <= gridTemplateRows (parentStyle p')) /\
  (forall n, width (style p) = Px n -> 5 <= n ->
     exists n', width (style p') = Px n' /\ 5 <= n') /\
  (forall n, height (style p) = Px n -> 5 <= n ->
     exists n', height (style p') = Px n' /\ 5 <= n') /\
  (forall z n, getHorizontalResizePointZone rp = Some z ->
     parseIntSlice2 (width (style p)) = Some n ->
     n + growthX z (md_x d) < 5 ->
     width (style p') = width (style p) /\
     left (parentStyle p') = left (parentStyle p) /\
     gridTemplateColumns (parentStyle p') = gridTemplateColumns (parentStyle p)) /\
  (forall z n, getVerticalResizePointZone rp = Some z ->
     parseIntSlice2 (height (style p)) = Some n ->
     n + growthY z (md_y d) < 5 ->
     height (style p') = height (style p) /\
     top (parentStyle p') = top (parentStyle p) /\
     gridTemplateRows (parentStyle p') = gridTemplateRows (parentStyle p)).
Proof.
  intros p'. subst p'. unfold changeElementSizeAndPosition, getResizePointZone.
  cbn [fst snd].
  set (zh := getHorizontalResizePointZone rp).
  set (zv := getVerticalResizePointZone rp).
  set (p1 := changeHorizontalMeasures w p (md_x d) zh).
  destruct (changeVerticalMeasures_horizontal w p1 (md_y d) zv) as (Vw & Vl & Vc & _).
  destruct (changeHorizontalMeasures_vertical w p (md_x d) zh) as (Hh & Ht & Hr & _).
  fold p1 in Hh, Ht, Hr.
  pose proof (changeHorizontalMeasures_cases w p (md_x d) zh) as CH. fold p1 in CH.
  pose proof (changeVerticalMeasures_cases w p1 (md_y d) zv) as CV.
  cbv zeta in *.
  rewrite Vw, Vl, Vc.
  split; [|split; [|split; [|split; [|split; [|split; [|split]]]]]].
  - intros Hne. destruct CH as [(E & _)|(z & n & _ & _ & Hge & E & _)]; [congruence|eauto].
  - intros Hne. destruct CH as [(_ & _ & E)|(z & n & _ & _ & Hge & _ & E)]; [congruence|lia].
  - intros Hne.
    destruct CV as [(E & _)|(z & n & _ & _ & Hge & E & _)]; [congruence|eauto].
  - intros Hne.
    destruct CV as [(_ & _ & E)|(z & n & _ & _ & Hge & _ & E)]; [congruence|lia].
  - intros n Hn Hge.
    destruct CH as [(E & _)|(z & n' & _ & _ & Hge' & E & _)]; [rewrite E; eauto|eauto].
  - intros n Hn Hge.
    destruct CV as [(E & _)|(z & n' & _ & _ & Hge' & E & _)]; [rewrite E, Hh; eauto|eauto].
  - intros z n Hz Hn Hlt. subst p1. rewrite Hz.
    rewrite (changeHorizontalMeasures_below_min w p (md_x d) z n Hn Hlt). auto.
  - intros z n Hz Hn Hlt. rewrite Hz.
    rewrite (changeVerticalMeasures_below_min w p1 (md_y d) z n); [auto| |assumption].
    rewrite Hh. assumption.
Qed.




(** The same scenario through the handler of the resize point. *)
Example right_zone_rejected_scenario_handler :
  let w := mkWindow 1000 800 1000 800 1000 800 in
  let p :=
    mkPane "pane" true
      (mkStyle 0 0 0 (Px 200) (Px 100) 0 0 DisplayInitial)
      (mkStyle 10 990 0 Auto Auto 100 200 DisplayGrid) in
  dragAction w (ActResize "right") (mkMouseDrag (-50) 0) p = p /\
  dragAction w (ActResize "right") (mkMouseDrag 50 0) p = p.
Proof. split; reflexivity. Qed.

(** ** Proofs: containment along a sequence of steps *)

Ltac break_pane p :=
  let i := fresh "i" in let r := fresh "r" in
  let t := fresh "t" in let l := fresh "l" in let m := fresh "m" in
  let wd := fresh "wd" in let h := fresh "h" in
  let gr := fresh "gr" in let gc := fresh "gc" in let ds := fresh "ds" in
  let pt := fresh "pt" in let pl := fresh "pl" in let pm := fresh "pm" in
  let pw := fresh "pw" in let ph := fresh "ph" in
  let pgr := fresh "pgr" in let pgc := fresh "pgc" in let pds := fresh "pds" in
  destruct p as [i r [t l m wd h gr gc ds] [pt pl pm pw ph pgr pgc pds]].

Section Containment.

Variable w : Window.

(** The invariant: either rectangle inside the viewport, on a pane whose
    inline size agrees with its tracks. *)
Definition inv (outer : bool) (p : Pane) : Prop :=
  consistent p /\ (if outer then contained w p else inner_contained w p).

Lemma drag_inv (outer : bool) (p : Pane) (d : MouseDrag) :
  inv outer p -> inv outer (drag w p d).
Proof.
  intros [Hc Hb]. split.
  - unfold consistent in *. rewrite drag_resizable. intros Hr. specialize (Hc Hr).
    unfold drag, with_dragTarget. rewrite Hr. exact Hc.
  - assert (Hx := getDragNewPosition_x w p d).
    assert (Hy := getDragNewPosition_y w p d).
    assert (Ht := drag_dragTarget w p d).
    assert (Hw := drag_offsetWidth w p d).
    assert (Hh := drag_offsetHeight w p d).
    assert (Hiw : innerWidth_of w (drag w p d) = innerWidth_of w p).
    { unfold innerWidth_of. rewrite drag_resizable, Hw.
      unfold drag, with_dragTarget. destruct (resizable p); reflexivity. }
    assert (Hih : innerHeight_of w (drag w p d) = innerHeight_of w p).
    { unfold innerHeight_of. rewrite drag_resizable, Hh.
      unfold drag, with_dragTarget. destruct (resizable p); reflexivity. }
    assert (Hle : innerWidth_of w p <= offsetWidth w p /\
                  innerHeight_of w p <= offsetHeight w p).
    { unfold innerWidth_of, innerHeight_of, offsetWidth, offsetHeight.
      destruct (resizable p); lia. }
    cbv zeta in Hx, Hy.
    destruct outer; unfold contained, inner_contained in *;
      rewrite ?Hw, ?Hh, ?Hiw, ?Hih, Ht; unfold offsetLeft, offsetTop in *;
      cbn [left top set_top set_left]; rewrite Hx, Hy;
      destruct_tests; lia_tests; lia.
Qed.

Lemma changeHorizontalMeasures_inv (outer : bool) (p : Pane) (d : Z) (zone : option Z) :
  (forall z, zone = Some z -> z = 0 \/ z = 1) ->
  resizable p = true -> inv outer p ->
  inv outer (changeHorizontalMeasures w p d zone).
Proof.
  intros Hz Hr [Hc Hb]. destruct zone as [z|]; [|split; assumption].
  specialize (Hz z eq_refl).
  destruct (Hc Hr) as [Hw Hh].
  rewrite (changeHorizontalMeasures_spec w p d z _ (f_equal parseIntSlice2 Hw)).
  unfold growthX.
  destruct_tests; try (split; assumption); lia_tests;
    (split; [intros _; cbn; split; [reflexivity|exact Hh]|]);
    destruct outer;
    unfold contained, inner_contained, innerWidth_of, innerHeight_of,
      offsetWidth, offsetHeight, dragTarget, offsetLeft, offsetTop in *;
    cbn; rewrite Hr in *; cbn; lia.
Qed.

Lemma changeVerticalMeasures_inv (outer : bool) (p : Pane) (d : Z) (zone : option Z) :
  (forall z, zone = Some z -> z = 2 \/ z = 3) ->
  resizable p = true -> inv outer p ->
  inv outer (changeVerticalMeasures w p d zone).
Proof.
  intros Hz Hr [Hc Hb]. destruct zone as [z|]; [|split; assumption].
  specialize (Hz z eq_refl).
  destruct (Hc Hr) as [Hw Hh].
  rewrite (changeVerticalMeasures_spec w p d z _ (f_equal parseIntSlice2 Hh)).
  unfold growthY.
  destruct_tests; try (split; assumption); lia_tests;
    (split; [intros _; cbn; split; [exact Hw|reflexivity]|]);
    destruct outer;
    unfold contained, inner_contained, innerWidth_of, innerHeight_of,
      offsetWidth, offsetHeight, dragTarget, offsetLeft, offsetTop in *;
    cbn; rewrite Hr in *; cbn; lia.
Qed.

Lemma step_inv (outer : bool) (p : Pane) (s : Step) :
  inv outer p -> inv outer (step w p s).
Proof.
  intros H. destruct s as [[rp|] d]; unfold step; cbn [fst snd dragAction].
  - destruct (resizable p) eqn:Hr; [|assumption].
    unfold changeElementSizeAndPosition.
    apply changeVerticalMeasures_inv.
    + intros z. apply vertical_zone_range.
    + destruct (changeHorizontalMeasures_vertical w p (md_x d)
                  (fst (getResizePointZone rp))) as (_ & _ & _ & E).
      rewrite E. assumption.
    + apply changeHorizontalMeasures_inv; try assumption.
      intros z. apply horizontal_zone_range.
  - apply drag_inv. assumption.
Qed.

Lemma trace_inv (outer : bool) (steps : list Step) (p : Pane) :
  inv outer p -> Forall (inv outer) (trace w p steps).
Proof.
  revert p. induction steps as [|s steps IH]; intros p H; simpl.
  - constructor.
  - constructor; [|apply IH]; apply step_inv; assumption.
Qed.

End Containment.



(** ** Proofs: the containment pass on a window resize *)







(** ** Proofs: maximize and restore *)

(** Two clicks on the maximize button of a pane that is not maximized. *)
Definition maximize_then_restore (w : Window) (p : Pane)
    (maxStorage : gmap string ActualSize) : Pane * gmap string ActualSize :=
  let '(p1, s1) := maxBtn_onclick w p maxStorage in
  maxBtn_onclick w p1 s1.


(** C4, evaluated.  In a viewport 1000 by 800, with no snapshot stored:
    - a plain pane at (10, 20), 300 by 200, with a margin of 8: after
      maximize and restore its margin is 0;
    - a resizable pane 200 by 150 whose wrapper is at (10, 20): after
      maximize and restore the inline width and height of the element are
      ['100%'], from which the next resize step in the right zone, with no
      mouse movement at all, parses [10] and commits a width of 10.
    In both cases the offsets are restored and the snapshot is removed. *)
Theorem maximize_then_restore_is_not_identity :
  let w := mkWindow 1000 800 1000 800 1000 800 in
  let plain :=
    mkPane "note" false
      (mkStyle 20 10 8 (Px 300) (Px 200) 0 0 DisplayBlock)
      (mkStyle 0 0 0 Auto Auto 0 0 DisplayInitial) in
  let wrapped :=
    mkPane "win" true
      (mkStyle 0 0 0 (Px 200) (Px 150) 0 0 DisplayInitial)
      (mkStyle 20 10 0 Auto Auto 150 200 DisplayGrid) in
  maximize_then_restore w plain ∅ =
    (mkPane "note" false
       (mkStyle 20 10 0 (Px 300) (Px 200) 0 0 DisplayBlock)
       (mkStyle 0 0 0 Auto Auto 0 0 DisplayInitial), ∅) /\
  fst (maximize_then_restore w plain ∅) <> plain /\
  maximize_then_restore w wrapped ∅ =
    (mkPane "win" true
       (mkStyle 0 0 0 (Pct 100) (Pct 100) 0 0 DisplayInitial)
       (mkStyle 20 10 0 Auto Auto 150 200 DisplayGrid), ∅) /\
  fst (maximize_then_restore w wrapped ∅) <> wrapped /\
  changeHorizontalMeasures w (fst (maximize_then_restore w wrapped ∅)) 0 (Some 1) =
    mkPane "win" true
      (mkStyle 0 0 0 (Px 10) (Pct 100) 0 0 DisplayInitial)
      (mkStyle 20 10 0 Auto Auto 150 10 DisplayGrid).
Proof.
  cbv zeta.
  assert (E1 : forall (a : ActualSize), delete "note" (<["note" := a]> (∅ : gmap string ActualSize)) = ∅).
  { intros a. apply delete_insert_id. apply lookup_empty. }
  assert (E2 : forall (a : ActualSize), delete "win" (<["win" := a]> (∅ : gmap string ActualSize)) = ∅).
  { intros a. apply delete_insert_id. apply lookup_empty. }
  unfold maximize_then_restore, maxBtn_onclick.
  cbn [id resizable with_style with_parentStyle]. rewrite !lookup_empty.
  cbn [id resizable with_style with_parentStyle]. rewrite !lookup_insert_eq.
  rewrite E1, E2. cbn.
  repeat split; try reflexivity; discriminate.
Qed.

(** ** Proofs: the minimized items *)

Implicit Types (slots : list Slot) (ts : list Template) (tt : list string).

(** [splice_loop] removes every empty slot. *)
Lemma splice_loop_app slots1 slots2 :
  Forall live slots2 ->
  splice_loop (length slots1) (slots1 ++ slots2) = filter live slots1 ++ slots2.
Proof.
  revert slots2. induction slots1 as [|s slots1 IH] using rev_ind; intros slots2 H2.
  - reflexivity.
  - rewrite length_app, Nat.add_1_r. cbn [splice_loop].
    rewrite <- app_assoc. cbn [app].
    rewrite list_lookup_middle by reflexivity.
    rewrite filter_app.
    destruct s as [t|].
    + rewrite IH by (constructor; [reflexivity|assumption]).
      replace (filter live [Entry t]) with [Entry t] by reflexivity.
      rewrite <- app_assoc. reflexivity.
    + rewrite delete_middle. rewrite IH by assumption.
      replace (filter live [EmptySlot]) with (@nil Slot) by reflexivity.
      rewrite app_nil_r. reflexivity.
Qed.

Lemma splice_loop_filter slots :
  splice_loop (length slots) slots = filter live slots.
Proof.
  rewrite <- (app_nil_r slots) at 2.
  rewrite splice_loop_app by constructor. apply app_nil_r.
Qed.

(** [compact] keeps the templates in order and drops the empty slots. *)
Lemma compact_loop_app (done junk rest : list Slot) :
  exists junk',
    compact_loop (length rest) (length done + length junk) (length done)
                 (done ++ junk ++ rest) =
      (done ++ filter live rest ++ junk', length (done ++ filter live rest)).
Proof.
  revert done junk. induction rest as [|s rest IH]; intros done junk.
  - exists junk. cbn. rewrite !app_nil_r. reflexivity.
  - cbn [length compact_loop].
    assert (Hs : (done ++ junk ++ s :: rest) !! (length done + length junk)%nat = Some s).
    { rewrite app_assoc. rewrite <- length_app. apply list_lookup_middle. reflexivity. }
    rewrite Hs. destruct s as [[i t]|].
    + cbn [t_id title].
      assert (E : <[length done := Entry (mkTemplate i t)]> (done ++ junk ++ Entry (mkTemplate i t) :: rest)
                  = (done ++ [Entry (mkTemplate i t)]) ++ (tail (junk ++ [Entry (mkTemplate i t)])) ++ rest).
      { rewrite <- (Nat.add_0_r (length done)) at 1. rewrite insert_app_r.
        rewrite <- app_assoc. f_equal. destruct junk as [|j junk]; cbn.
        - reflexivity.
        - rewrite <- app_assoc. reflexivity. }
      rewrite E.
      destruct (IH (done ++ [Entry (mkTemplate i t)])
                   (tail (junk ++ [Entry (mkTemplate i t)]))) as [junk' IH'].
      replace (S (length done + length junk)) with
        (length (done ++ [Entry (mkTemplate i t)])
         + length (tail (junk ++ [Entry (mkTemplate i t)])))%nat.
      2:{ rewrite length_app. cbn [length].
          destruct junk; cbn; rewrite ?length_app; cbn; lia. }
      replace (S (length done)) with (length (done ++ [Entry (mkTemplate i t)])).
      2:{ rewrite length_app. cbn. lia. }
      rewrite IH'. exists junk'.
      rewrite filter_cons_True by reflexivity.
      rewrite <- !app_assoc. reflexivity.
    + destruct (IH done (junk ++ [EmptySlot])) as [junk' IH'].
      replace (S (length done + length junk)) with
        (length done + length (junk ++ [EmptySlot]))%nat
        by (rewrite length_app; cbn; lia).
      rewrite <- app_assoc in IH'. cbn [app] in IH'.
      rewrite IH'. exists junk'.
      rewrite filter_cons_False by (intros E; discriminate E). reflexivity.
Qed.

Lemma compact_filter slots : compact slots = filter live slots.
Proof.
  unfold compact.
  destruct (compact_loop_app [] [] slots) as [junk' E].
  cbn [length app Nat.add] in E. rewrite E.
  cbn [app]. apply take_app_length.
Qed.


Lemma templates_Entry ts : templates (Entry <$> ts) = ts.
Proof.
  unfold templates. induction ts as [|t ts IH]; [reflexivity|].
  cbn. f_equal. exact IH.
Qed.

Lemma filter_live_templates slots : filter live slots = Entry <$> templates slots.
Proof.
  unfold templates. induction slots as [|[t|] slots IH]; [reflexivity| |].
  - rewrite filter_cons_True by reflexivity. cbn. f_equal. exact IH.
  - rewrite filter_cons_False by (intros E; discriminate E). exact IH.
Qed.

Lemma horizontalReps_Entry ts :
  horizontalReps (Entry <$> ts) = imap (fun j t => rep j (title t)) ts.
Proof. unfold horizontalReps. rewrite imap_fmap. reflexivity. Qed.

(** Renumbering a zone of representations. *)
Lemma renumber_reps {A} (f : nat -> nat) (g : A -> string) (l : list A) :
  imap (fun i n => set_node_id (Idx (Z.of_nat i)) n)
       (imap (fun j x => rep (f j) (g x)) l) =
  imap (fun j x => rep j (g x)) l.
Proof.
  apply list_eq. intros i. rewrite !list_lookup_imap.
  destruct (l !! i); reflexivity.
Qed.

Lemma delete_imap {A B} (g : nat -> A -> B) (k : nat) (l : list A) :
  delete k (imap g l) =
  imap (fun j x => g (if decide (j < k)%nat then j else S j) x) (delete k l).
Proof.
  apply list_eq. intros i. rewrite list_lookup_imap.
  destruct (decide (i < k)%nat) as [Hlt|Hge].
  - rewrite !list_lookup_delete_lt by assumption. rewrite list_lookup_imap.
    reflexivity.
  - rewrite !list_lookup_delete_ge by lia. rewrite list_lookup_imap.
    reflexivity.
Qed.

Lemma index_of_nat {A} (l : list A) (i : nat) : index l (Z.of_nat i) = l !! i.
Proof.
  unfold index. destruct (Z.of_nat i <? 0) eqn:E; [lia_tests; lia|].
  rewrite Nat2Z.id. reflexivity.
Qed.

Lemma registered_panes ts st st' :
  (forall i, is_Some (panes st !! i) -> is_Some (panes st' !! i)) ->
  registered ts st -> registered ts st'.
Proof.
  intros H Hr. unfold registered in *. eapply Forall_impl; [exact Hr|].
  intros t. apply H.
Qed.

Lemma registered_delete ts k st : registered ts st -> registered (delete k ts) st.
Proof.
  unfold registered. rewrite !Forall_forall. intros H t Ht. apply H.
  revert Ht. apply list_subseteq_delete.
Qed.

Lemma insert_empty_templates ts k :
  templates (<[k := EmptySlot]> (Entry <$> ts)) = delete k ts.
Proof.
  unfold templates. revert k. induction ts as [|t ts IH]; intros [|k]; cbn;
    try reflexivity.
  - apply templates_Entry.
  - f_equal. apply IH.
Qed.

(** X1 (C7).  In strip mode with a registry of [n] entries, a click on the
    representation at any place [k < n] succeeds and leaves strip mode with
    the registry without its [k]-th entry: [minStorage] holds the [n - 1]
    remaining templates in their order, with no empty slot, and the zone
    holds their representations in the same order with identifiers
    [0 .. n - 2]; the pane of the removed entry is shown again. *)
Theorem restore_reindexes_strip (ts : list Template) (st : State) (k : nat) (t : Template) :
  strip_state ts st ->
  ts !! k = Some t ->
  exists element, panes st !! t_id t = Some element /\
  exists st',
    maximize (InZone k) st = Some st' /\
    strip_state (delete k ts) st' /\
    minStorage st' = (Entry <$> delete k ts) /\
    minimizeZone st' = imap (fun j t => rep j (title t)) (delete k ts) /\
    (node_id <$> minimizeZone st') =
      ((fun j => Idx (Z.of_nat j)) <$> seq 0 (length ts - 1)) /\
    length (minStorage st') = (length ts - 1)%nat /\
    Forall live (minStorage st') /\
    panes st' = <[t_id t := show element]> (panes st).
Proof.
  intros (Hd & Hms & Hz & Hreg) Hk.
  assert (Hel : is_Some (panes st !! t_id t)).
  { unfold registered in Hreg. rewrite Forall_forall in Hreg. apply Hreg.
    eapply list_elem_of_lookup_2. exact Hk. }
  destruct Hel as [element Hel].
  assert (Hlen : (k < length ts)%nat) by (eapply lookup_lt_Some; exact Hk).
  assert (Hstrip : forall st',
    dropdown st' = false ->
    minStorage st' = (Entry <$> delete k ts) ->
    minimizeZone st' = imap (fun j t => rep j (title t)) (delete k ts) ->
    panes st' = <[t_id t := show element]> (panes st) ->
    strip_state (delete k ts) st' /\
    minStorage st' = (Entry <$> delete k ts) /\
    minimizeZone st' = imap (fun j t => rep j (title t)) (delete k ts) /\
    (node_id <$> minimizeZone st') =
      ((fun j => Idx (Z.of_nat j)) <$> seq 0 (length ts - 1)) /\
    length (minStorage st') = (length ts - 1)%nat /\
    Forall live (minStorage st') /\
    panes st' = <[t_id t := show element]> (panes st)).
  { intros st' Hd' Hms' Hz' Hp'.
    split; [|split; [exact Hms'|split; [exact Hz'|split; [|split; [|split]]]]].
    - split; [exact Hd'|]. split; [exact Hms'|]. split; [exact Hz'|].
      apply registered_delete. eapply registered_panes; [|exact Hreg].
      intros i Hi. rewrite Hp'. rewrite lookup_insert.
      case_decide; [eexists; reflexivity|exact Hi].
    - rewrite Hz'. rewrite fmap_imap.
      assert (E : (length ts - 1)%nat = length (delete k ts)).
      { symmetry. apply length_delete. eexists; exact Hk. }
      rewrite E.
      rewrite <- (imap_seq_0 (delete k ts) (fun j => Idx (Z.of_nat j))).
      apply imap_ext. intros; reflexivity.
    - rewrite Hms'. rewrite length_fmap. apply length_delete. eexists; exact Hk.
    - rewrite Hms'. rewrite Forall_fmap. apply Forall_true. intros x. reflexivity.
    - exact Hp'. }
  exists element. split; [exact Hel|].
  unfold maximize. cbn [item_at remove_at].
  rewrite Hz, list_lookup_imap, Hk. cbn.
  rewrite index_of_nat, Hms, list_lookup_fmap, Hk. cbn.
  rewrite Hel. cbn. rewrite Hd. cbn. rewrite Hd.
  rewrite Nat2Z.id.
  destruct (Z.of_nat (length (delete k (imap (fun j t0 => rep j (title t0)) ts))) =? 0) eqn:Hz0.
  - lia_tests. rewrite length_delete, length_imap in Hz0
      by (rewrite list_lookup_imap, Hk; eexists; reflexivity).
    assert (Hnil : delete k ts = []).
    { apply nil_length_inv. rewrite length_delete by (eexists; exact Hk). lia. }
    eexists. split; [reflexivity|].
    refine (Hstrip _ _ _ _ _); cbn; rewrite ?Hnil; try reflexivity.
    + exact Hd.
    + rewrite delete_imap, Hnil. reflexivity.
  - eexists. split; [reflexivity|].
    refine (Hstrip _ _ _ _ _); cbn.
    + exact Hd.
    + rewrite splice_loop_filter, filter_live_templates.
      rewrite insert_empty_templates. reflexivity.
    + rewrite delete_imap. apply (renumber_reps _ title).
    + reflexivity.
Qed.

(** [deleteMinimizedItems] on a strip of representations numbered from [i]:
    the first [m] are removed. *)
Lemma deleteMinimizedItems_loop_reps tt (i m : nat) (rest : list Node) :
  (m <= length tt)%nat ->
  deleteMinimizedItems_loop m (Z.of_nat i)
    (imap (fun j s => rep (i + j) s) tt ++ rest) =
  Some (drop m (imap (fun j s => rep (i + j) s) tt) ++ rest).
Proof.
  revert tt i. induction m as [|m IH]; intros tt i Hm.
  - reflexivity.
  - destruct tt as [|s tt]; [cbn in Hm; lia|].
    cbn [deleteMinimizedItems_loop imap app].
    unfold getElementById. cbn [getElementById_from rep node_id item_id].
    rewrite Nat.add_0_r. rewrite decide_True by reflexivity.
    cbn [removeChild length]. rewrite decide_True by lia.
    cbn [delete list_delete mbind option_bind drop].
    replace (Z.of_nat i + 1) with (Z.of_nat (S i)) by lia.
    rewrite (imap_ext _ (fun j s => rep (S i + j) s))
      by (intros j x _; unfold compose; f_equal; lia).
    apply IH. cbn in Hm. lia.
Qed.

Lemma deleteMinimizedItems_strip ts (k : Z) :
  k <= Z.of_nat (length ts) ->
  deleteMinimizedItems (Num k) (imap (fun j t => rep j (title t)) ts) =
  Some (drop (Z.to_nat k) (imap (fun j t => rep j (title t)) ts)).
Proof.
  intros Hk. unfold deleteMinimizedItems.
  pose proof (deleteMinimizedItems_loop_reps (title <$> ts) 0 (Z.to_nat k) []) as H.
  rewrite !app_nil_r in H. cbn [Nat.add Z.of_nat] in H.
  rewrite imap_fmap in H. apply H. rewrite length_fmap. lia.
Qed.

Lemma live_items_Entry_from (h : nat -> nat) ts :
  omap (fun item => item)
    (imap (fun j s =>
             match s with
             | Entry t => Some (mkItem (Idx (Z.of_nat (h j))) (title t))
             | EmptySlot => None
             end) (Entry <$> ts)) =
  imap (fun j t => mkItem (Idx (Z.of_nat (h j))) (title t)) ts.
Proof.
  revert h. induction ts as [|t ts IH]; intros h; [reflexivity|].
  cbn. f_equal. apply (IH (h ∘ S)).
Qed.

Lemma live_items_Entry ts :
  live_items (Entry <$> ts) = imap (fun j t => mkItem (Idx (Z.of_nat j)) (title t)) ts.
Proof. apply (live_items_Entry_from (fun j => j)). Qed.

Lemma addDropdownItems_Entry ts :
  addDropdownItems (Entry <$> ts) = live_items (Entry <$> ts).
Proof.
  rewrite live_items_Entry. unfold addDropdownItems. rewrite imap_fmap. reflexivity.
Qed.

Lemma registered_snoc ts t st :
  registered ts st -> is_Some (panes st !! t_id t) -> registered (ts ++ [t]) st.
Proof.
  intros H Ht. unfold registered in *. apply Forall_app. split; [exact H|].
  constructor; [exact Ht|constructor].
Qed.

Lemma alter_is_Some (f : Pane -> Pane) (i j : string) (m : gmap string Pane) :
  is_Some (m !! j) -> is_Some (alter f i m !! j).
Proof.
  intros H. rewrite lookup_alter. case_decide; [|exact H].
  subst. destruct H as [x ->]. eexists; reflexivity.
Qed.

(** The duplicate test passes a template that does not repeat the last
    one. *)
Lemma deleteDuplicatedItemsMinStorage_fresh ts t st :
  not_repeated ts t ->
  minStorage st = Entry <$> (ts ++ [t]) ->
  deleteDuplicatedItemsMinStorage st = (false, set_count (Z.of_nat (length ts)) st).
Proof.
  intros Hnr Hms. unfold deleteDuplicatedItemsMinStorage.
  rewrite Hms, length_fmap, length_app. cbn [length].
  replace (Z.of_nat (length ts + 1) - 1) with (Z.of_nat (length ts)) by lia.
  destruct (Z.of_nat (length ts) >? 0) eqn:Hpos; [|reflexivity].
  lia_tests. cbn [minStorage set_count]. rewrite Hms.
  replace (Z.of_nat (length ts) - 1) with (Z.of_nat (length ts - 1)) by lia.
  rewrite !index_of_nat, !list_lookup_fmap.
  rewrite lookup_app_l by lia.
  rewrite (lookup_app_r ts) by lia. rewrite Nat.sub_diag. cbn [lookup list_lookup fmap option_fmap option_map].
  destruct (ts !! (length ts - 1)%nat) as [t'|] eqn:Hlast.
  - cbn. rewrite decide_False; [reflexivity|].
    intros [= E]. apply (Hnr t'); [|exact E].
    rewrite last_lookup. rewrite <- Hlast. f_equal. lia.
  - reflexivity.
Qed.

(** The capacity depends on the layout and on the first child of the zone
    only, and measuring it changes the cached item width only. *)
Lemma getItemCountToFitElementByWidth_fst lay item st st' :
  fst (getItemCountToFitElementByWidth lay item st) =
  fst (getItemCountToFitElementByWidth lay item st').
Proof. destruct item; reflexivity. Qed.

Lemma getItemCountToFitElementByWidth_snd lay item st :
  let st' := snd (getItemCountToFitElementByWidth lay item st) in
  minStorage st' = minStorage st /\ count st' = count st /\
  dropdown st' = dropdown st /\ numItems st' = numItems st /\
  minimizeZone st' = minimizeZone st /\ panes st' = panes st.
Proof. destruct item; cbn; repeat split; reflexivity. Qed.

Lemma horizontalRepToDropdownList_strip ts (k : Z) (st : State) :
  minimizeZone st = imap (fun j t => rep j (title t)) ts ->
  k <= Z.of_nat (length ts) ->
  horizontalRepToDropdownList (Num k) st =
  Some (set_minimizeZone
          (drop (Z.to_nat k) (imap (fun j t => rep j (title t)) ts) ++
           [DropdownBtn (Name "dropdownBtn");
            DropdownList (Name "dropdownList") (addDropdownItems (minStorage st))]) st).
Proof.
  intros Hz Hk. unfold horizontalRepToDropdownList.
  rewrite Hz, deleteMinimizedItems_strip by assumption. reflexivity.
Qed.

(** A minimize request in strip mode, for a pane of the document that does
    not repeat the last entry, with [c] the capacity measured from the
    strip. *)
Lemma minimize_strip (lay : ZoneLayout) ts (t : Template) (st : State) (c : JsNum) :
  strip_state ts st ->
  capacity lay st = c ->
  not_repeated ts t ->
  is_Some (panes st !! t_id t) ->
  (gt_num (Z.of_nat (length ts) + 1) c = false ->
   exists st', minimize lay t st = Some st' /\
     strip_state (ts ++ [t]) st' /\ numItems st' = c) /\
  (forall k, c = Num k -> Z.of_nat (length ts) + 1 > k ->
   exists st', minimize lay t st = Some st' /\
     dropdown st' = true /\
     minStorage st' = (Entry <$> (ts ++ [t])) /\
     minimizeZone st' =
       drop (Z.to_nat k) (imap (fun j t => rep j (title t)) ts) ++
       [DropdownBtn (Name "dropdownBtn");
        DropdownList (Name "dropdownList") (live_items (Entry <$> (ts ++ [t])))] /\
     numItems st' = Num k /\
     registered (ts ++ [t]) st').
Proof.
  intros (Hd & Hms & Hz & Hreg) Hc Hnr Ht.
  unfold minimize, storeMinimizedElement.
  rewrite (deleteDuplicatedItemsMinStorage_fresh ts t)
    by (try assumption; cbn; rewrite Hms, fmap_app; reflexivity).
  unfold minimizeUI. cbn [dropdown set_count set_minStorage]. rewrite Hd.
  cbn [minimizeZone set_count set_minStorage].
  set (st1 := set_count _ _).
  destruct (getItemCountToFitElementByWidth lay (firstElementChild (minimizeZone st)) st1)
    as [n st2] eqn:Hg.
  assert (Hn : n = c).
  { rewrite <- Hc. unfold capacity.
    rewrite (getItemCountToFitElementByWidth_fst lay _ st st1), Hg. reflexivity. }
  destruct (getItemCountToFitElementByWidth_snd lay (firstElementChild (minimizeZone st)) st1)
    as (G1 & G2 & G3 & G4 & G5 & G6).
  rewrite Hg in G1, G2, G3, G4, G5, G6. cbn [snd] in *.
  subst st1. cbn in G1, G2, G3, G4, G5, G6.
  cbn. rewrite G1, G2, G5, Hms, Hz.
  rewrite length_app, length_fmap. cbn [length].
  replace (Z.of_nat (length ts + 1)) with (Z.of_nat (length ts) + 1) by lia.
  subst n.
  assert (Hreg' : forall st', panes st' = alter (with_dragTarget (set_display DisplayNone))
                                           (t_id t) (panes st) ->
                              registered (ts ++ [t]) st').
  { intros st' Hp. eapply registered_panes; [|apply registered_snoc; eassumption].
    intros i Hi. rewrite Hp. apply alter_is_Some. exact Hi. }
  split.
  - intros Hgt. rewrite Hgt.
    rewrite index_of_nat.
    rewrite lookup_app_r by (rewrite length_fmap; lia).
    rewrite length_fmap, Nat.sub_diag. cbn.
    eexists. split; [reflexivity|]. split; [|cbn; reflexivity].
    split; [cbn; rewrite G3; exact Hd|].
    split; [cbn; rewrite G1, Hms, fmap_app; reflexivity|].
    split; [|apply Hreg'; cbn; rewrite G6; reflexivity].
    cbn. rewrite imap_app. cbn. rewrite Nat.add_0_r. reflexivity.
  - intros k -> Hk. cbn [gt_num].
    replace (Z.of_nat (length ts) + 1 >? k) with true by (symmetry; apply Z.gtb_gt; lia).
    rewrite (horizontalRepToDropdownList_strip ts k)
      by (try lia; cbn; rewrite G5; exact Hz).
    cbn.
    eexists. split; [reflexivity|].
    split; [reflexivity|].
    split; [cbn; rewrite G1, Hms, fmap_app; reflexivity|].
    split; [|split; [reflexivity|apply Hreg'; cbn; rewrite G6; reflexivity]].
    cbn. rewrite G1, Hms. rewrite <- addDropdownItems_Entry, fmap_app. reflexivity.
Qed.

(** X3 (C9).  The recomputation on a window resize, in strip mode, with [c]
    the capacity measured from the strip.  When the number of entries does
    not exceed [c], nothing changes but the stored capacity.  When it
    exceeds [c = k], the handler switches to the dropdown: the [k + 1] first
    representations are removed, the representations beyond them, if any,
    stay in the zone in front of the button, and the list holds one item per
    entry of the registry. *)
Lemma updateMinimizedItemsOnWindowChange_strip (lay : ZoneLayout) ts (st : State)
    (c : JsNum) :
  strip_state ts st ->
  capacity lay st = c ->
  (gt_num (Z.of_nat (length ts)) c = false ->
   exists st', updateMinimizedItemsOnWindowChange lay st = Some st' /\
     strip_state ts st' /\ numItems st' = c) /\
  (forall k, c = Num k -> Z.of_nat (length ts) > k ->
   exists st', updateMinimizedItemsOnWindowChange lay st = Some st' /\
     dropdown st' = true /\
     minStorage st' = (Entry <$> ts) /\
     minimizeZone st' =
       drop (Z.to_nat (k + 1)) (imap (fun j t => rep j (title t)) ts) ++
       [DropdownBtn (Name "dropdownBtn");
        DropdownList (Name "dropdownList") (live_items (Entry <$> ts))] /\
     numItems st' = Num k /\
     registered ts st').
Proof.
  intros (Hd & Hms & Hz & Hreg) Hc.
  unfold updateMinimizedItemsOnWindowChange. rewrite Hd.
  destruct (getItemCountToFitElementByWidth lay (firstElementChild (minimizeZone st)) st)
    as [n st2] eqn:Hg.
  assert (Hn : n = c).
  { rewrite <- Hc. unfold capacity. rewrite Hg. reflexivity. }
  destruct (getItemCountToFitElementByWidth_snd lay (firstElementChild (minimizeZone st)) st)
    as (G1 & G2 & G3 & G4 & G5 & G6).
  rewrite Hg in G1, G2, G3, G4, G5, G6. cbn [snd] in *.
  cbn. rewrite G1, Hms, length_fmap. subst n.
  split.
  - intros Hgt. rewrite Hgt. eexists. split; [reflexivity|].
    split; [|reflexivity].
    split; [cbn; rewrite G3; exact Hd|].
    split; [cbn; rewrite G1; exact Hms|].
    split; [cbn; rewrite G5; exact Hz|].
    eapply registered_panes; [|exact Hreg]. intros i Hi. cbn. rewrite G6. exact Hi.
  - intros k -> Hk. cbn [gt_num succ_num].
    replace (Z.of_nat (length ts) >? k) with true by (symmetry; apply Z.gtb_gt; lia).
    rewrite (horizontalRepToDropdownList_strip ts (k + 1))
      by (try lia; cbn; rewrite G5; exact Hz).
    cbn. eexists. split; [reflexivity|].
    split; [reflexivity|].
    split; [cbn; rewrite G1; exact Hms|].
    split; [cbn; rewrite G1, Hms, addDropdownItems_Entry; reflexivity|].
    split; [reflexivity|].
    eapply registered_panes; [|exact Hreg]. intros i Hi. cbn. rewrite G6. exact Hi.
Qed.

(** An item of the dropdown list names a live slot. *)
Lemma live_items_lookup slots (j : nat) (it : Item) :
  live_items slots !! j = Some it ->
  exists (i : nat) (t : Template),
    it = mkItem (Idx (Z.of_nat i)) (title t) /\ slots !! i = Some (Entry t).
Proof.
  intros Hj. apply list_elem_of_lookup_2 in Hj. unfold live_items in Hj.
  apply list_elem_of_omap in Hj. destruct Hj as (o & Ho & Eo).
  apply elem_of_lookup_imap in Ho. destruct Ho as (i & s & -> & Hs).
  destruct s as [t|]; [|discriminate Eo].
  injection Eo as <-. exists i, t. split; [reflexivity|exact Hs].
Qed.

Lemma templates_elem_of slots (t : Template) :
  t ∈ templates slots <-> Entry t ∈ slots.
Proof.
  unfold templates. rewrite list_elem_of_omap. split.
  - intros ([t'|] & Hin & E); [|discriminate E]. injection E as ->. exact Hin.
  - intros Hin. exists (Entry t). split; [exact Hin|reflexivity].
Qed.

Lemma registered_insert_empty slots (i : nat) st :
  registered (templates slots) st ->
  registered (templates (<[i := EmptySlot]> slots)) st.
Proof.
  unfold registered. rewrite !Forall_forall. intros H t Ht. apply H.
  rewrite templates_elem_of in *.
  apply list_elem_of_lookup in Ht. destruct Ht as [j Hj].
  destruct (decide (i = j)) as [->|Hne].
  - rewrite list_lookup_insert_eq in Hj by (eapply lookup_lt_is_Some;
      destruct (decide (j < length slots)%nat) as [Hlt|Hge];
      [apply lookup_lt_is_Some_2; exact Hlt|
       rewrite list_insert_ge in Hj by lia; eexists; exact Hj]).
    discriminate Hj.
  - rewrite list_lookup_insert_ne in Hj by assumption.
    eapply list_elem_of_lookup_2. exact Hj.
Qed.

(** A click on a dropdown item that leaves at most [numItems] items: the
    dropdown is replaced by the strip of the remaining entries. *)
Lemma maximize_dropdown_to_strip slots (st : State) (j : nat) (it : Item) :
  dropdown_state slots st ->
  live_items slots !! j = Some it ->
  le_num (Z.of_nat (length (live_items slots)) - 1) (numItems st) = true ->
  exists (i : nat) (t : Template) (element : Pane),
    it = mkItem (Idx (Z.of_nat i)) (title t) /\
    slots !! i = Some (Entry t) /\
    panes st !! t_id t = Some element /\
    exists st',
      maximize (InList 1 j) st = Some st' /\
      strip_state (templates (<[i := EmptySlot]> slots)) st' /\
      panes st' = <[t_id t := show element]> (panes st) /\
      numItems st' = numItems st.
Proof.
  intros (Hd & Hms & Hz & Hreg) Hj Hle.
  destruct (live_items_lookup slots j it Hj) as (i & t & -> & Hi).
  assert (Hel : is_Some (panes st !! t_id t)).
  { unfold registered in Hreg. rewrite Forall_forall in Hreg. apply Hreg.
    apply templates_elem_of. eapply list_elem_of_lookup_2. exact Hi. }
  destruct Hel as [element Hel].
  exists i, t, element. split; [reflexivity|]. split; [exact Hi|]. split; [exact Hel|].
  set (ts' := templates (<[i := EmptySlot]> slots)).
  assert (Hlen : Z.of_nat (length (delete j (live_items slots))) =
                 Z.of_nat (length (live_items slots)) - 1).
  { rewrite length_delete by (eexists; exact Hj).
    apply lookup_lt_Some in Hj. lia. }
  unfold maximize. rewrite Hz. cbn [item_at remove_at lookup list_lookup].
  rewrite Hj. cbn. rewrite index_of_nat, Hms, Hi. cbn. rewrite Hel. cbn.
  rewrite Hd. rewrite decide_False by discriminate.
  rewrite decide_True by reflexivity. cbn.
  rewrite Hlen, Hle. cbn.
  rewrite decide_True by lia. cbn. rewrite decide_True by lia. cbn.
  rewrite Nat2Z.id.
  rewrite compact_filter, filter_live_templates. fold ts'.
  rewrite horizontalReps_Entry.
  destruct (Z.of_nat (length (imap (fun j0 t0 => rep j0 (title t0)) ts')) =? 0) eqn:Hz0.
  - lia_tests. rewrite length_imap in Hz0.
    assert (Hnil : ts' = []) by (apply nil_length_inv; lia).
    eexists. split; [reflexivity|]. split; [|split; reflexivity].
    rewrite Hnil. split; [reflexivity|]. split; [reflexivity|].
    split; [reflexivity|]. constructor.
  - eexists. split; [reflexivity|]. split; [|split; reflexivity].
    split; [reflexivity|].
    split; [cbn; rewrite splice_loop_filter, filter_live_templates, templates_Entry;
            reflexivity|].
    split; [cbn; apply (renumber_reps (fun j => j) title)|].
    subst ts'. eapply registered_panes; [|apply registered_insert_empty; exact Hreg].
    intros x Hx. cbn. rewrite lookup_insert. case_decide; [eexists; reflexivity|exact Hx].
Qed.

Lemma live_items_length_from (h : nat -> nat) slots :
  length (omap (fun item => item)
            (imap (fun j s =>
                     match s with
                     | Entry t => Some (mkItem (Idx (Z.of_nat (h j))) (title t))
                     | EmptySlot => None
                     end) slots)) =
  length (templates slots).
Proof.
  revert h. induction slots as [|[t|] slots IH]; intros h; [reflexivity| |].
  - cbn. f_equal. apply (IH (h ∘ S)).
  - cbn. apply (IH (h ∘ S)).
Qed.

Lemma live_items_length slots : length (live_items slots) = length (templates slots).
Proof. apply (live_items_length_from (fun j => j)). Qed.

Lemma templates_cons_Entry t slots : templates (Entry t :: slots) = t :: templates slots.
Proof. reflexivity. Qed.

Lemma templates_cons_EmptySlot slots : templates (EmptySlot :: slots) = templates slots.
Proof. reflexivity. Qed.

Lemma templates_insert_empty_length slots (i : nat) (t : Template) :
  slots !! i = Some (Entry t) ->
  S (length (templates (<[i := EmptySlot]> slots))) = length (templates slots).
Proof.
  revert i. induction slots as [|s slots IH]; intros [|i] Hi; try discriminate Hi.
  - cbn in Hi. injection Hi as ->. reflexivity.
  - cbn in Hi. specialize (IH i Hi). cbn [insert list_insert].
    destruct s.
    + rewrite !templates_cons_Entry. cbn [length]. f_equal. exact IH.
    + rewrite !templates_cons_EmptySlot. exact IH.
Qed.

(** X2 (C8).  With an item capacity of [k]:
    - in strip mode with [k] entries, a minimize request for one more pane
      (a pane of the document that does not repeat the last entry) switches
      to dropdown mode: no representation is left in the zone, which holds
      the toggle button and the list, and the list holds one item per entry
      of the registry, the new one included, in order;
    - in dropdown mode, a click on an item that brings the number of entries
      down to [k] or fewer switches back to strip mode: [minStorage] is
      compacted to the remaining templates and the zone holds their
      representations, numbered from [0] in order. *)
Theorem mode_boundary :
  (forall (lay : ZoneLayout) (ts : list Template) (t : Template) (st : State) (k : Z),
     strip_state ts st ->
     capacity lay st = Num k ->
     Z.of_nat (length ts) = k ->
     not_repeated ts t ->
     is_Some (panes st !! t_id t) ->
     exists st',
       minimize lay t st = Some st' /\
       dropdown_state (Entry <$> (ts ++ [t])) st' /\
       numItems st' = Num k /\
       minimizeZone st' =
         [DropdownBtn (Name "dropdownBtn");
          DropdownList (Name "dropdownList")
            (imap (fun j t => mkItem (Idx (Z.of_nat j)) (title t)) (ts ++ [t]))]) /\
  (forall (slots : list Slot) (st : State) (j : nat) (it : Item) (k : Z),
     dropdown_state slots st ->
     numItems st = Num k ->
     live_items slots !! j = Some it ->
     Z.of_nat (length (templates slots)) - 1 <= k ->
     exists (i : nat) (t : Template) (st' : State),
       it = mkItem (Idx (Z.of_nat i)) (title t) /\
       slots !! i = Some (Entry t) /\
       maximize (InList 1 j) st = Some st' /\
       strip_state (templates (<[i := EmptySlot]> slots)) st' /\
       length (templates (<[i := EmptySlot]> slots)) = (length (templates slots) - 1)%nat).
Proof.
  split.
  - intros lay ts t st k Hs Hc Hlen Hnr Ht.
    destruct (minimize_strip lay ts t st (Num k) Hs Hc Hnr Ht) as [_ H].
    destruct (H k eq_refl ltac:(lia)) as (st' & Hm & Hd & Hms & Hz & Hn & Hreg).
    exists st'. split; [exact Hm|].
    rewrite drop_ge in Hz by (rewrite length_imap; lia). cbn [app] in Hz.
    split; [|split; [exact Hn|]].
    + split; [exact Hd|]. split; [exact Hms|]. split; [exact Hz|].
      rewrite templates_Entry. exact Hreg.
    + rewrite Hz, live_items_Entry. reflexivity.
  - intros slots st j it k Hs Hn Hj Hle.
    destruct (maximize_dropdown_to_strip slots st j it Hs Hj) as
      (i & t & element & -> & Hi & Hel & st' & Hm & Hstrip & _).
    { rewrite Hn, live_items_length. cbn. apply Z.leb_le. exact Hle. }
    exists i, t, st'. split; [reflexivity|]. split; [exact Hi|].
    split; [exact Hm|]. split; [exact Hstrip|].
    pose proof (templates_insert_empty_length slots i t Hi). lia.
Qed.

(** The scenario of the design document: a zone 300 wide and items 100 wide
    give a capacity of 3.  With three panes minimized, minimizing a fourth
    switches to the dropdown; restoring the second one leaves three entries
    and switches back to the strip, with identifiers 0, 1 and 2. *)
Lemma mode_boundary_scenario :
  let lay := mkZoneLayout 300 (fun _ => 100) (fun _ => 0) (fun _ => 0) in
  let plain := fun i =>
    mkPane i false
      (mkStyle 20 10 0 (Px 300) (Px 200) 0 0 DisplayBlock)
      (mkStyle 0 0 0 Auto Auto 0 0 DisplayInitial) in
  let a := mkTemplate "a" "A" in
  let b := mkTemplate "b" "B" in
  let c := mkTemplate "c" "C" in
  let d := mkTemplate "d" "D" in
  let st :=
    mkState [Entry a; Entry b; Entry c] 2 (Some 100) false (Num 3)
      [rep 0 "A"; rep 1 "B"; rep 2 "C"]
      (<["a" := plain "a"]> (<["b" := plain "b"]> (<["c" := plain "c"]>
         (<["d" := plain "d"]> ∅)))) in
  capacity lay st = Num 3 /\
  exists st4,
    minimize lay d st = Some st4 /\
    dropdown st4 = true /\
    minimizeZone st4 =
      [DropdownBtn (Name "dropdownBtn");
       DropdownList (Name "dropdownList")
         [mkItem (Idx 0) "A"; mkItem (Idx 1) "B"; mkItem (Idx 2) "C"; mkItem (Idx 3) "D"]] /\
    exists st5,
      maximize (InList 1 1) st4 = Some st5 /\
      dropdown st5 = false /\
      minStorage st5 = [Entry a; Entry c; Entry d] /\
      minimizeZone st5 = [rep 0 "A"; rep 1 "C"; rep 2 "D"].
Proof.
  cbv zeta. split; [reflexivity|].
  match goal with
  | |- exists st4, minimize ?lay ?d ?st = _ /\ _ =>
    destruct (proj1 mode_boundary lay
                [mkTemplate "a" "A"; mkTemplate "b" "B"; mkTemplate "c" "C"] d st 3)
      as (st4 & Hm & Hds & Hn & Hz)
  end.
  { split; [reflexivity|]. split; [reflexivity|]. split; [reflexivity|].
    repeat constructor; eexists; reflexivity. }
  { reflexivity. }
  { reflexivity. }
  { intros t' [= <-]. discriminate. }
  { eexists; reflexivity. }
  exists st4. split; [exact Hm|]. split; [apply Hds|]. split; [exact Hz|].
  destruct (proj2 mode_boundary _ st4 1%nat (mkItem (Idx 1) "B") 3 Hds Hn)
    as (i & t & st5 & Hit & Hi & Hmax & Hstrip & _).
  { reflexivity. }
  { cbn. lia. }
  assert (Ei : i = 1%nat) by (injection Hit as Hi' _; lia).
  subst i. exists st5. split; [exact Hmax|].
  destruct Hstrip as (H1 & H2 & H3 & _).
  split; [exact H1|]. split; [exact H2|exact H3].
Defined.

(** A strip of four representations in a zone shrunk to a capacity of three:
    the resize recomputation switches to the dropdown and removes the four
    representations, the identifiers [0 .. 3]. *)
Lemma updateMinimizedItemsOnWindowChange_strip_example :
  let lay := mkZoneLayout 300 (fun _ => 100) (fun _ => 0) (fun _ => 0) in
  let ts := [mkTemplate "a" "A"; mkTemplate "b" "B"; mkTemplate "c" "C";
             mkTemplate "d" "D"] in
  let plain := fun i =>
    mkPane i false
      (mkStyle 20 10 0 (Px 300) (Px 200) 0 0 DisplayNone)
      (mkStyle 0 0 0 Auto Auto 0 0 DisplayInitial) in
  let st :=
    mkState (Entry <$> ts) 3 (Some 100) false (Num 4)
      [rep 0 "A"; rep 1 "B"; rep 2 "C"; rep 3 "D"]
      (<["a" := plain "a"]> (<["b" := plain "b"]> (<["c" := plain "c"]>
         (<["d" := plain "d"]> ∅)))) in
  strip_state ts st /\ capacity lay st = Num 3 /\
  exists st',
    updateMinimizedItemsOnWindowChange lay st = Some st' /\
    dropdown st' = true /\
    minimizeZone st' =
      [DropdownBtn (Name "dropdownBtn");
       DropdownList (Name "dropdownList")
         [mkItem (Idx 0) "A"; mkItem (Idx 1) "B"; mkItem (Idx 2) "C"; mkItem (Idx 3) "D"]].
Proof.
  cbv zeta.
  match goal with
  | |- strip_state ?ts ?st /\ capacity ?lay _ = _ /\ _ =>
    assert (Hs : strip_state ts st);
    [|split; [exact Hs|]; split; [reflexivity|];
      destruct (proj2 (updateMinimizedItemsOnWindowChange_strip lay ts st (Num 3)
                         Hs eq_refl) 3 eq_refl)
        as (st' & Hu & Hd & _ & Hz & _)]
  end.
  { split; [reflexivity|]. split; [reflexivity|]. split; [reflexivity|].
    repeat constructor; eexists; reflexivity. }
  { cbn. lia. }
  exists st'. split; [exact Hu|]. split; [exact Hd|exact Hz].
Defined.

(** X5.  Duplicate suppression.  When the last slot of [minStorage] holds a
    template with the id of the pane to minimize, the request changes
    nothing but the global [count]: the pushed template is popped again, no
    representation is added and no pane is hidden. *)
Theorem minimize_repeated_is_suppressed
    (lay : ZoneLayout) (t : Template) (st : State) (s : Slot) :
  last (minStorage st) = Some s ->
  slot_id s = Some (t_id t) ->
  minimize lay t st = Some (set_count (Z.of_nat (length (minStorage st))) st).
Proof.
  intros Hlast Hid. unfold minimize, storeMinimizedElement, deleteDuplicatedItemsMinStorage.
  cbn [minStorage set_minStorage set_count].
  rewrite length_app. cbn [length].
  replace (Z.of_nat (length (minStorage st) + 1) - 1)
    with (Z.of_nat (length (minStorage st))) by lia.
  rewrite last_lookup in Hlast.
  assert (Hpos : (0 < length (minStorage st))%nat).
  { destruct (minStorage st); [discriminate Hlast|cbn; lia]. }
  replace (Z.of_nat (length (minStorage st)) >? 0) with true
    by (symmetry; apply Z.gtb_gt; lia).
  replace (Z.of_nat (length (minStorage st)) - 1)
    with (Z.of_nat (pred (length (minStorage st)))) by lia.
  rewrite !index_of_nat.
  rewrite lookup_app_l by lia. rewrite Hlast.
  rewrite lookup_app_r by lia. rewrite Nat.sub_diag. cbn [lookup list_lookup].
  cbn [slot_id]. rewrite Hid. rewrite decide_True by reflexivity.
  rewrite Nat2Z.id, take_app_length.
  destruct st; reflexivity.
Qed.

Lemma minimize_repeated_is_suppressed_example :
  let lay := mkZoneLayout 300 (fun _ => 100) (fun _ => 0) (fun _ => 0) in
  let a := mkTemplate "a" "A" in
  let st := mkState [Entry a] 0 None false NaN [rep 0 "A"] ∅ in
  last (minStorage st) = Some (Entry a) /\
  minimize lay a st = Some (mkState [Entry a] 1 None false NaN [rep 0 "A"] ∅).
Proof.
  cbv zeta. split; [reflexivity|].
  match goal with
  | |- minimize ?lay ?a ?st = _ =>
    exact (minimize_repeated_is_suppressed lay a st (Entry a) eq_refl eq_refl)
  end.
Defined.

(** *** Dropdown mode *)

Lemma templates_app slots1 slots2 :
  templates (slots1 ++ slots2) = templates slots1 ++ templates slots2.
Proof. unfold templates. apply omap_app. Qed.

Lemma live_items_snoc slots (t : Template) :
  live_items (slots ++ [Entry t]) =
  live_items slots ++ [mkItem (Idx (Z.of_nat (length slots))) (title t)].
Proof.
  unfold live_items. rewrite imap_app, omap_app. cbn.
  rewrite Nat.add_0_r. reflexivity.
Qed.

Lemma getElementById_dropdownList (items : list Item) :
  getElementById (Name "dropdownList")
    [DropdownBtn (Name "dropdownBtn"); DropdownList (Name "dropdownList") items] =
  Some (InZone 1).
Proof.
  unfold getElementById. cbn.
  rewrite decide_False by discriminate. rewrite decide_True by reflexivity.
  reflexivity.
Qed.

(** The duplicate test passes a template whose id differs from the id of the
    last slot; an empty last slot has no id. *)
Lemma deleteDuplicatedItemsMinStorage_new slots (t : Template) (st : State) :
  (forall s, last slots = Some s -> slot_id s <> Some (t_id t)) ->
  minStorage st = slots ++ [Entry t] ->
  deleteDuplicatedItemsMinStorage st = (false, set_count (Z.of_nat (length slots)) st).
Proof.
  intros Hnr Hms. unfold deleteDuplicatedItemsMinStorage.
  rewrite Hms, length_app. cbn [length].
  replace (Z.of_nat (length slots + 1) - 1) with (Z.of_nat (length slots)) by lia.
  destruct (Z.of_nat (length slots) >? 0) eqn:Hpos; [|reflexivity].
  lia_tests. cbn [minStorage set_count]. rewrite Hms.
  replace (Z.of_nat (length slots) - 1) with (Z.of_nat (pred (length slots))) by lia.
  rewrite !index_of_nat.
  rewrite lookup_app_l by lia.
  rewrite (lookup_app_r slots) by lia. rewrite Nat.sub_diag. cbn [lookup list_lookup].
  rewrite <- last_lookup.
  destruct (last slots) as [s|] eqn:Hlast; [|reflexivity].
  cbn [slot_id]. rewrite decide_False; [reflexivity|]. apply Hnr. reflexivity.
Qed.

(** Every path of [minimizeUI] ends by hiding the pane and touches no other
    pane. *)
Lemma minimizeUI_panes (lay : ZoneLayout) (element : string) (st st' : State) :
  minimizeUI lay element st = Some st' ->
  panes st' = alter (with_dragTarget (set_display DisplayNone)) element (panes st).
Proof.
  unfold minimizeUI. intros H.
  destruct (dropdown st).
  - destruct (getElementById _ _) as [[k|]|]; try discriminate H.
    destruct (index _ _); try discriminate H. cbn in H.
    destruct (minimizeZone st !! k) as [n|]; try discriminate H. cbn in H.
    destruct (appendItem _ n); try discriminate H. cbn in H.
    injection H as <-. reflexivity.
  - destruct (getItemCountToFitElementByWidth lay _ st) as [n st2] eqn:Hg.
    pose proof (getItemCountToFitElementByWidth_snd lay
                  (firstElementChild (minimizeZone st)) st) as G.
    rewrite Hg in G. cbn [snd] in G. destruct G as (_ & _ & _ & _ & _ & G6).
    destruct (gt_num _ _).
    + unfold horizontalRepToDropdownList in H.
      destruct (deleteMinimizedItems _ _); try discriminate H. cbn in H.
      injection H as <-. cbn. rewrite G6. reflexivity.
    + destruct (index _ _); try discriminate H. cbn in H.
      injection H as <-. cbn. rewrite G6. reflexivity.
Qed.

(** X6.  A minimize request in dropdown mode, for a pane of the document
    whose id differs from the id of the last slot: the template is pushed,
    one item carrying the index of the new slot is appended to the list, and
    the mode and the capacity are kept. *)
Theorem minimize_in_dropdown_appends_item
    (lay : ZoneLayout) (slots : list Slot) (t : Template) (st : State) :
  dropdown_state slots st ->
  (forall s, last slots = Some s -> slot_id s <> Some (t_id t)) ->
  is_Some (panes st !! t_id t) ->
  exists st',
    minimize lay t st = Some st' /\
    dropdown_state (slots ++ [Entry t]) st' /\
    live_items (slots ++ [Entry t]) =
      live_items slots ++ [mkItem (Idx (Z.of_nat (length slots))) (title t)] /\
    numItems st' = numItems st /\
    panes st' = alter (with_dragTarget (set_display DisplayNone)) (t_id t) (panes st).
Proof.
  intros (Hd & Hms & Hz & Hreg) Hnr Ht.
  unfold minimize, storeMinimizedElement.
  rewrite (deleteDuplicatedItemsMinStorage_new slots t)
    by (try assumption; cbn; rewrite Hms; reflexivity).
  unfold minimizeUI. cbn. rewrite Hd, Hz, getElementById_dropdownList.
  rewrite index_of_nat, Hms.
  rewrite lookup_app_r by lia. rewrite Nat.sub_diag. cbn.
  eexists. split; [reflexivity|].
  split; [|split; [apply live_items_snoc|split; reflexivity]].
  split; [exact Hd|]. split; [cbn; rewrite ?Hms; reflexivity|].
  split; [cbn; rewrite ?live_items_snoc; reflexivity|].
  rewrite templates_app. cbn [templates omap app].
  change (omap _ [Entry t]) with [t].
  eapply registered_panes; [|apply registered_snoc; eassumption].
  intros i Hi. cbn. apply alter_is_Some. exact Hi.
Qed.

Lemma minimize_in_dropdown_appends_item_example :
  let lay := mkZoneLayout 100 (fun _ => 100) (fun _ => 0) (fun _ => 0) in
  let plain := fun i =>
    mkPane i false
      (mkStyle 20 10 0 (Px 300) (Px 200) 0 0 DisplayBlock)
      (mkStyle 0 0 0 Auto Auto 0 0 DisplayInitial) in
  let a := mkTemplate "a" "A" in
  let c := mkTemplate "c" "C" in
  let slots := [Entry a; EmptySlot] in
  let st :=
    mkState slots 1 (Some 100) true (Num 1)
      [DropdownBtn (Name "dropdownBtn");
       DropdownList (Name "dropdownList") [mkItem (Idx 0) "A"]]
      (<["a" := plain "a"]> (<["c" := plain "c"]> ∅)) in
  dropdown_state slots st /\
  exists st',
    minimize lay c st = Some st' /\
    minStorage st' = [Entry a; EmptySlot; Entry c] /\
    minimizeZone st' =
      [DropdownBtn (Name "dropdownBtn");
       DropdownList (Name "dropdownList") [mkItem (Idx 0) "A"; mkItem (Idx 2) "C"]].
Proof.
  cbv zeta.
  match goal with
  | |- dropdown_state ?slots ?st /\ (exists st', minimize ?lay ?c _ = _ /\ _) =>
    assert (Hs : dropdown_state slots st);
    [|split; [exact Hs|];
      destruct (minimize_in_dropdown_appends_item lay slots c st Hs)
        as (st' & Hm & (_ & Hms & Hz & _) & _)]
  end.
  { split; [reflexivity|]. split; [reflexivity|]. split; [reflexivity|].
    repeat constructor; eexists; reflexivity. }
  { intros s [= <-]. discriminate. }
  { eexists; reflexivity. }
  exists st'. split; [exact Hm|]. split; [exact Hms|exact Hz].
Defined.

(** The item at place [j] of the list belongs to a live slot [i]; emptying
    that slot removes exactly this item from the list. *)
Lemma live_items_delete_from (h : nat -> nat) slots (j : nat) (it : Item) :
  omap (fun item => item)
    (imap (fun j s =>
             match s with
             | Entry t => Some (mkItem (Idx (Z.of_nat (h j))) (title t))
             | EmptySlot => None
             end) slots) !! j = Some it ->
  exists (i : nat) (t : Template),
    it = mkItem (Idx (Z.of_nat (h i))) (title t) /\
    slots !! i = Some (Entry t) /\
    delete j
      (omap (fun item => item)
         (imap (fun j s =>
                  match s with
                  | Entry t => Some (mkItem (Idx (Z.of_nat (h j))) (title t))
                  | EmptySlot => None
                  end) slots)) =
    omap (fun item => item)
      (imap (fun j s =>
               match s with
               | Entry t => Some (mkItem (Idx (Z.of_nat (h j))) (title t))
               | EmptySlot => None
               end) (<[i := EmptySlot]> slots)).
Proof.
  revert h j. induction slots as [|s slots IH]; intros h j Hj; [discriminate Hj|].
  destruct s as [t|].
  - cbn in Hj. destruct j as [|j].
    + cbn in Hj. injection Hj as <-. exists 0%nat, t. repeat split; reflexivity.
    + cbn in Hj. destruct (IH (h ∘ S) j Hj) as (i & t' & -> & Hi & Hdel).
      exists (S i), t'. split; [reflexivity|]. split; [exact Hi|].
      cbn. f_equal. exact Hdel.
  - cbn in Hj. destruct (IH (h ∘ S) j Hj) as (i & t' & -> & Hi & Hdel).
    exists (S i), t'. split; [reflexivity|]. split; [exact Hi|].
    cbn. exact Hdel.
Qed.

Lemma live_items_delete slots (j : nat) (it : Item) :
  live_items slots !! j = Some it ->
  exists (i : nat) (t : Template),
    it = mkItem (Idx (Z.of_nat i)) (title t) /\
    slots !! i = Some (Entry t) /\
    delete j (live_items slots) = live_items (<[i := EmptySlot]> slots).
Proof. apply (live_items_delete_from (fun j => j)). Qed.

(** X7.  A click on a dropdown item that leaves more items than the capacity:
    the item is removed from the list, its slot is emptied in place, so that
    the other slots keep their indices and the other items their
    identifiers, the pane is shown again and the mode stays. *)
Theorem restore_in_dropdown_keeps_indices
    (slots : list Slot) (st : State) (j : nat) (it : Item) :
  dropdown_state slots st ->
  live_items slots !! j = Some it ->
  le_num (Z.of_nat (length (live_items slots)) - 1) (numItems st) = false ->
  exists (i : nat) (t : Template) (element : Pane) (st' : State),
    it = mkItem (Idx (Z.of_nat i)) (title t) /\
    slots !! i = Some (Entry t) /\
    panes st !! t_id t = Some element /\
    maximize (InList 1 j) st = Some st' /\
    dropdown_state (<[i := EmptySlot]> slots) st' /\
    length (minStorage st') = length slots /\
    live_items (<[i := EmptySlot]> slots) = delete j (live_items slots) /\
    panes st' = <[t_id t := show element]> (panes st).
Proof.
  intros (Hd & Hms & Hz & Hreg) Hj Hle.
  destruct (live_items_delete slots j it Hj) as (i & t & -> & Hi & Hdel).
  assert (Hel : is_Some (panes st !! t_id t)).
  { unfold registered in Hreg. rewrite Forall_forall in Hreg. apply Hreg.
    apply templates_elem_of. eapply list_elem_of_lookup_2. exact Hi. }
  destruct Hel as [element Hel].
  exists i, t, element.
  assert (Hlen : Z.of_nat (length (delete j (live_items slots))) =
                 Z.of_nat (length (live_items slots)) - 1).
  { rewrite length_delete by (eexists; exact Hj).
    apply lookup_lt_Some in Hj. lia. }
  unfold maximize. rewrite Hz. cbn [item_at remove_at lookup list_lookup].
  rewrite Hj. cbn. rewrite index_of_nat, Hms, Hi. cbn. rewrite Hel. cbn.
  rewrite Hd. rewrite decide_False by discriminate.
  rewrite decide_True by reflexivity. cbn.
  rewrite Hlen, Hle. cbn. rewrite Hd, Nat2Z.id.
  eexists. split; [reflexivity|]. split; [first [exact Hi|reflexivity]|].
  split; [first [exact Hel|reflexivity]|].
  split; [reflexivity|].
  split; [|split; [cbn; apply length_insert|split; [symmetry; exact Hdel|reflexivity]]].
  split; [exact Hd|]. split; [reflexivity|].
  split; [cbn; rewrite Hdel; reflexivity|].
  eapply registered_panes; [|apply registered_insert_empty; exact Hreg].
  intros x Hx. cbn. rewrite lookup_insert. case_decide; [eexists; reflexivity|exact Hx].
Qed.

Lemma restore_in_dropdown_keeps_indices_example :
  let plain := fun i =>
    mkPane i false
      (mkStyle 20 10 0 (Px 300) (Px 200) 0 0 DisplayNone)
      (mkStyle 0 0 0 Auto Auto 0 0 DisplayInitial) in
  let a := mkTemplate "a" "A" in
  let b := mkTemplate "b" "B" in
  let c := mkTemplate "c" "C" in
  let slots := [Entry a; Entry b; Entry c] in
  let st :=
    mkState slots 2 (Some 100) true (Num 1)
      [DropdownBtn (Name "dropdownBtn");
       DropdownList (Name "dropdownList")
         [mkItem (Idx 0) "A"; mkItem (Idx 1) "B"; mkItem (Idx 2) "C"]]
      (<["a" := plain "a"]> (<["b" := plain "b"]> (<["c" := plain "c"]> ∅))) in
  dropdown_state slots st /\
  exists st',
    maximize (InList 1 1) st = Some st' /\
    minStorage st' = [Entry a; EmptySlot; Entry c] /\
    minimizeZone st' =
      [DropdownBtn (Name "dropdownBtn");
       DropdownList (Name "dropdownList") [mkItem (Idx 0) "A"; mkItem (Idx 2) "C"]].
Proof.
  cbv zeta.
  match goal with
  | |- dropdown_state ?slots ?st /\ _ =>
    assert (Hs : dropdown_state slots st);
    [|split; [exact Hs|];
      destruct (restore_in_dropdown_keeps_indices slots st 1%nat
                  (mkItem (Idx 1) "B") Hs eq_refl eq_refl)
        as (i & t & element & st' & Hit & _ & _ & Hm & (_ & Hms & Hz & _) & _)]
  end.
  { split; [reflexivity|]. split; [reflexivity|]. split; [reflexivity|].
    repeat constructor; eexists; reflexivity. }
  assert (Ei : i = 1%nat) by (injection Hit as Hi' _; lia).
  subst i. exists st'. split; [exact Hm|]. split; [exact Hms|exact Hz].
Defined.

(** Three representations in the strip; a click on the second one leaves the
    first and the third, renumbered [0] and [1]. *)
Lemma restore_reindexes_strip_example :
  let plain := fun i =>
    mkPane i false
      (mkStyle 20 10 0 (Px 300) (Px 200) 0 0 DisplayNone)
      (mkStyle 0 0 0 Auto Auto 0 0 DisplayInitial) in
  let a := mkTemplate "a" "A" in
  let b := mkTemplate "b" "B" in
  let c := mkTemplate "c" "C" in
  let st :=
    mkState [Entry a; Entry b; Entry c] 2 (Some 100) false (Num 5)
      [rep 0 "A"; rep 1 "B"; rep 2 "C"]
      (<["a" := plain "a"]> (<["b" := plain "b"]> (<["c" := plain "c"]> ∅))) in
  strip_state [a; b; c] st /\
  exists st',
    maximize (InZone 1) st = Some st' /\
    minStorage st' = [Entry a; Entry c] /\
    minimizeZone st' = [rep 0 "A"; rep 1 "C"].
Proof.
  cbv zeta.
  match goal with
  | |- strip_state ?ts ?st /\ _ =>
    assert (Hs : strip_state ts st);
    [|split; [exact Hs|];
      destruct (restore_reindexes_strip ts st 1%nat (mkTemplate "b" "B") Hs eq_refl)
        as (element & _ & st' & Hm & _ & Hms & Hz & _)]
  end.
  { split; [reflexivity|]. split; [reflexivity|]. split; [reflexivity|].
    repeat constructor; eexists; reflexivity. }
  exists st'. split; [exact Hm|]. split; [exact Hms|exact Hz].
Defined.

(** A click on the [k]-th representation of the strip, with what it keeps. *)
Lemma maximize_strip (ts : list Template) (st : State) (k : nat) (t : Template)
    (element : Pane) :
  strip_state ts st ->
  ts !! k = Some t ->
  panes st !! t_id t = Some element ->
  exists st',
    maximize (InZone k) st = Some st' /\
    strip_state (delete k ts) st' /\
    panes st' = <[t_id t := show element]> (panes st) /\
    numItems st' = numItems st /\
    elementWidth st' = elementWidth st.
Proof.
  intros (Hd & Hms & Hz & Hreg) Hk Hel.
  assert (Hlen : (k < length ts)%nat) by (eapply lookup_lt_Some; exact Hk).
  assert (Hstrip : forall st',
    dropdown st' = false ->
    minStorage st' = (Entry <$> delete k ts) ->
    minimizeZone st' = imap (fun j t => rep j (title t)) (delete k ts) ->
    panes st' = <[t_id t := show element]> (panes st) ->
    strip_state (delete k ts) st').
  { intros st' Hd' Hms' Hz' Hp'.
    split; [exact Hd'|]. split; [exact Hms'|]. split; [exact Hz'|].
    apply registered_delete. eapply registered_panes; [|exact Hreg].
    intros i Hi. rewrite Hp'. rewrite lookup_insert.
    case_decide; [eexists; reflexivity|exact Hi]. }
  unfold maximize. cbn [item_at remove_at].
  rewrite Hz, list_lookup_imap, Hk. cbn.
  rewrite index_of_nat, Hms, list_lookup_fmap, Hk. cbn.
  rewrite Hel. cbn. rewrite Hd. cbn. rewrite Hd.
  rewrite Nat2Z.id.
  destruct (Z.of_nat (length (delete k (imap (fun j t0 => rep j (title t0)) ts))) =? 0) eqn:Hz0.
  - lia_tests. rewrite length_delete, length_imap in Hz0
      by (rewrite list_lookup_imap, Hk; eexists; reflexivity).
    assert (Hnil : delete k ts = []).
    { apply nil_length_inv. rewrite length_delete by (eexists; exact Hk). lia. }
    eexists. split; [reflexivity|].
    split; [|split; [reflexivity|split; reflexivity]].
    apply Hstrip; cbn; rewrite ?Hnil; try reflexivity.
    + exact Hd.
    + rewrite delete_imap, Hnil. reflexivity.
  - eexists. split; [reflexivity|].
    split; [|split; [reflexivity|split; reflexivity]].
    apply Hstrip; cbn.
    + exact Hd.
    + rewrite splice_loop_filter, filter_live_templates.
      rewrite insert_empty_templates. reflexivity.
    + rewrite delete_imap. apply (renumber_reps _ title).
    + reflexivity.
Qed.

(** A minimize request that is not a repetition hides the pane and touches
    no other pane. *)
Lemma minimize_fresh_panes (lay : ZoneLayout) ts (t : Template) (st st' : State) :
  not_repeated ts t ->
  minStorage st = (Entry <$> ts) ->
  minimize lay t st = Some st' ->
  panes st' = alter (with_dragTarget (set_display DisplayNone)) (t_id t) (panes st).
Proof.
  intros Hnr Hms. unfold minimize, storeMinimizedElement.
  rewrite (deleteDuplicatedItemsMinStorage_fresh ts t)
    by (try assumption; cbn; rewrite Hms, fmap_app; reflexivity).
  intros H. apply minimizeUI_panes in H. exact H.
Qed.

Lemma show_hide (p : Pane) :
  show (with_dragTarget (set_display DisplayNone) p) =
  with_dragTarget
    (set_display (if resizable p then DisplayGrid else DisplayBlock)) p.
Proof. destruct p as [i [] s ps]; reflexivity. Qed.

Lemma insert_alter_same (f : Pane -> Pane) (i : string) (v : Pane)
    (m : gmap string Pane) :
  <[i := v]> (alter f i m) = <[i := v]> m.
Proof.
  apply map_eq. intros j. destruct (decide (i = j)) as [->|Hne].
  - rewrite !lookup_insert_eq. reflexivity.
  - rewrite !lookup_insert_ne by exact Hne.
    rewrite lookup_alter_ne by exact Hne. reflexivity.
Qed.

(** X9.  Minimize and restore, in strip mode with room for one more
    representation.  Minimizing a pane and then clicking its representation,
    the last of the strip, gives back the registry and the zone as they
    were.  The pane keeps its position and its size: nothing of it changes
    but the display of its positioned element, which is ['grid'] for a
    resizable pane and ['block'] otherwise, whatever it was before. *)
Theorem minimize_then_restore_in_strip
    (lay : ZoneLayout) (ts : list Template) (t : Template) (st : State) (p : Pane) :
  strip_state ts st ->
  gt_num (Z.of_nat (length ts) + 1) (capacity lay st) = false ->
  not_repeated ts t ->
  panes st !! t_id t = Some p ->
  exists st1 st2,
    minimize lay t st = Some st1 /\
    maximize (InZone (length ts)) st1 = Some st2 /\
    strip_state ts st2 /\
    minStorage st2 = minStorage st /\
    minimizeZone st2 = minimizeZone st /\
    panes st2 =
      <[t_id t :=
          with_dragTarget
            (set_display (if resizable p then DisplayGrid else DisplayBlock)) p]>
        (panes st).
Proof.
  intros Hs Hc Hnr Hp.
  destruct (minimize_strip lay ts t st (capacity lay st) Hs eq_refl Hnr
              ltac:(eexists; exact Hp)) as [H _].
  destruct (H Hc) as (st1 & Hm & Hs1 & _).
  pose proof (minimize_fresh_panes lay ts t st st1 Hnr (proj1 (proj2 Hs)) Hm) as Hp1.
  assert (Hk : (ts ++ [t]) !! length ts = Some t).
  { rewrite lookup_app_r by lia. rewrite Nat.sub_diag. reflexivity. }
  assert (Hel : panes st1 !! t_id t =
                Some (with_dragTarget (set_display DisplayNone) p)).
  { rewrite Hp1, lookup_alter_eq, Hp. reflexivity. }
  destruct (maximize_strip (ts ++ [t]) st1 (length ts) t _ Hs1 Hk Hel)
    as (st2 & Hx & Hs2 & Hp2 & _).
  assert (Hdel : delete (length ts) (ts ++ [t]) = ts).
  { rewrite delete_middle. apply app_nil_r. }
  rewrite Hdel in Hs2.
  exists st1, st2. split; [exact Hm|]. split; [exact Hx|]. split; [exact Hs2|].
  destruct Hs as (_ & Hms & Hz & _). destruct Hs2 as (_ & Hms2 & Hz2 & _).
  split; [congruence|]. split; [congruence|].
  rewrite Hp2, Hp1, show_hide. apply insert_alter_same.
Qed.

Lemma minimize_then_restore_in_strip_example :
  let lay := mkZoneLayout 300 (fun _ => 100) (fun _ => 0) (fun _ => 0) in
  let wrapped :=
    mkPane "win" true
      (mkStyle 0 0 0 (Px 200) (Px 150) 0 0 DisplayInitial)
      (mkStyle 20 10 0 Auto Auto 150 200 DisplayInitial) in
  let note :=
    mkPane "a" false
      (mkStyle 20 10 0 (Px 300) (Px 200) 0 0 DisplayNone)
      (mkStyle 0 0 0 Auto Auto 0 0 DisplayInitial) in
  let a := mkTemplate "a" "A" in
  let st :=
    mkState [Entry a] 0 (Some 100) false (Num 3) [rep 0 "A"]
      (<["a" := note]> (<["win" := wrapped]> ∅)) in
  strip_state [a] st /\
  exists st1 st2,
    minimize lay (mkTemplate "win" "Win") st = Some st1 /\
    maximize (InZone 1) st1 = Some st2 /\
    minimizeZone st2 = [rep 0 "A"] /\
    panes st2 !! "win" =
      Some (mkPane "win" true
              (mkStyle 0 0 0 (Px 200) (Px 150) 0 0 DisplayInitial)
              (mkStyle 20 10 0 Auto Auto 150 200 DisplayGrid)).
Proof.
  cbv zeta.
  match goal with
  | |- strip_state ?ts ?st /\ (exists st1 st2, minimize ?lay ?t _ = _ /\ _) =>
    assert (Hs : strip_state ts st);
    [|split; [exact Hs|];
      destruct (minimize_then_restore_in_strip lay ts t st
                  (mkPane "win" true
                     (mkStyle 0 0 0 (Px 200) (Px 150) 0 0 DisplayInitial)
                     (mkStyle 20 10 0 Auto Auto 150 200 DisplayInitial)) Hs)
        as (st1 & st2 & Hm & Hx & _ & _ & Hz & Hp)]
  end.
  { split; [reflexivity|]. split; [reflexivity|]. split; [reflexivity|].
    repeat constructor; eexists; reflexivity. }
  { reflexivity. }
  { intros t' [= <-]. discriminate. }
  { reflexivity. }
  exists st1, st2. split; [exact Hm|]. split; [exact Hx|]. split; [exact Hz|].
  rewrite Hp. reflexivity.
Defined.

Lemma le_floor (a b c : Z) : 0 < b -> (c <= a / b <-> c * b <= a).
Proof.
  intros Hb. split; intros H.
  - pose proof (Z.mul_div_le a b Hb). nia.
  - apply Z.div_le_lower_bound; lia.
Qed.

(** X4.  When a minimize request keeps the strip.  In strip mode with at
    least one representation, let [ew] be the outer width of the first one
    (computed width and side margins), positive.  A minimize request for a
    pane of the document that does not repeat the last entry keeps the strip
    and appends a representation when the representations with the new one,
    each counted [ew] wide, fit the client width of the zone; otherwise it
    switches to the dropdown. *)
Theorem minimize_keeps_strip_iff_fits
    (lay : ZoneLayout) (ts : list Template) (t : Template) (st : State)
    (first : Node) (ew : Z) :
  strip_state ts st ->
  not_repeated ts t ->
  is_Some (panes st !! t_id t) ->
  firstElementChild (minimizeZone st) = Some first ->
  ew = computedWidth lay first + computedMarginLeft lay first
       + computedMarginRight lay first ->
  0 < ew ->
  exists st',
    minimize lay t st = Some st' /\
    ((Z.of_nat (length ts) + 1) * ew <= clientWidth lay ->
       strip_state (ts ++ [t]) st') /\
    (clientWidth lay < (Z.of_nat (length ts) + 1) * ew ->
       dropdown st' = true /\ minStorage st' = (Entry <$> (ts ++ [t]))).
Proof.
  intros Hs Hnr Ht Hf -> Hew.
  destruct (minimize_strip lay ts t st (capacity lay st) Hs eq_refl Hnr Ht)
    as [Hfit Hover].
  assert (Hcap : capacity lay st =
                 Num (clientWidth lay /
                      (computedWidth lay first + computedMarginLeft lay first
                       + computedMarginRight lay first))).
  { unfold capacity. rewrite Hf. cbn. unfold floor_div.
    destruct (_ =? 0) eqn:Hz0; [lia_tests; lia|reflexivity]. }
  rewrite Hcap in Hfit, Hover. cbn in Hfit.
  destruct (Z.of_nat (length ts) + 1 >?
            clientWidth lay /
              (computedWidth lay first + computedMarginLeft lay first
               + computedMarginRight lay first)) eqn:Hgt.
  - apply Z.gtb_gt in Hgt.
    destruct (Hover _ eq_refl Hgt) as (st' & Hm & Hd & Hms & _).
    exists st'. split; [exact Hm|]. split.
    + intros Hle. apply le_floor in Hle; [lia|exact Hew].
    + intros _. split; [exact Hd|exact Hms].
  - destruct (Hfit eq_refl) as (st' & Hm & Hs' & _).
    exists st'. split; [exact Hm|]. split.
    + intros _. exact Hs'.
    + intros Hlt. exfalso.
      assert (Hle : Z.of_nat (length ts) + 1 <=
                    clientWidth lay /
                      (computedWidth lay first + computedMarginLeft lay first
                       + computedMarginRight lay first)).
      { destruct (Z.gtb_spec (Z.of_nat (length ts) + 1)
                    (clientWidth lay /
                      (computedWidth lay first + computedMarginLeft lay first
                       + computedMarginRight lay first))); [discriminate Hgt|lia]. }
      apply le_floor in Hle; [lia|exact Hew].
Qed.

Lemma minimize_keeps_strip_iff_fits_example :
  let lay := mkZoneLayout 250 (fun _ => 90) (fun _ => 5) (fun _ => 5) in
  let plain := fun i =>
    mkPane i false
      (mkStyle 20 10 0 (Px 300) (Px 200) 0 0 DisplayBlock)
      (mkStyle 0 0 0 Auto Auto 0 0 DisplayInitial) in
  let a := mkTemplate "a" "A" in
  let b := mkTemplate "b" "B" in
  let st :=
    mkState [Entry a] 0 (Some 100) false (Num 2) [rep 0 "A"]
      (<["a" := plain "a"]> (<["b" := plain "b"]> ∅)) in
  strip_state [a] st /\
  exists st',
    minimize lay b st = Some st' /\
    strip_state [a; b] st'.
Proof.
  cbv zeta.
  match goal with
  | |- strip_state ?ts ?st /\ (exists st', minimize ?lay ?t _ = _ /\ _) =>
    assert (Hs : strip_state ts st);
    [|split; [exact Hs|];
      destruct (minimize_keeps_strip_iff_fits lay ts t st (rep 0 "A") 100 Hs)
        as (st' & Hm & Hfit & _)]
  end.
  { split; [reflexivity|]. split; [reflexivity|]. split; [reflexivity|].
    repeat constructor; eexists; reflexivity. }
  { intros t' [= <-]. discriminate. }
  { eexists; reflexivity. }
  { reflexivity. }
  { reflexivity. }
  { lia. }
  exists st'. split; [exact Hm|]. apply Hfit. cbn. lia.
Defined.

(** X10.  The first pane minimized.  With an empty zone there is no
    representation to measure, the capacity is [undefined] and the overflow
    test is false: the request adds a representation, whatever the width of
    the zone. *)
Theorem minimize_first_item_goes_to_strip
    (lay : ZoneLayout) (t : Template) (st : State) :
  strip_state [] st ->
  is_Some (panes st !! t_id t) ->
  exists st',
    minimize lay t st = Some st' /\
    strip_state [t] st' /\
    minimizeZone st' = [rep 0 (title t)] /\
    numItems st' = NaN.
Proof.
  intros Hs Ht.
  assert (Hc : capacity lay st = NaN).
  { unfold capacity. destruct Hs as (_ & _ & Hz & _). rewrite Hz. reflexivity. }
  destruct (minimize_strip lay [] t st NaN Hs Hc) as [H _].
  { intros t' Hl. discriminate Hl. }
  { exact Ht. }
  destruct (H eq_refl) as (st' & Hm & Hs' & Hn).
  exists st'. split; [exact Hm|]. split; [exact Hs'|].
  split; [apply Hs'|exact Hn].
Qed.

Lemma minimize_first_item_goes_to_strip_example :
  let lay := mkZoneLayout 0 (fun _ => 100) (fun _ => 0) (fun _ => 0) in
  let plain :=
    mkPane "a" false
      (mkStyle 20 10 0 (Px 300) (Px 200) 0 0 DisplayBlock)
      (mkStyle 0 0 0 Auto Auto 0 0 DisplayInitial) in
  let st := mkState [] 0 None false NaN [] (<["a" := plain]> ∅) in
  strip_state [] st /\
  exists st',
    minimize lay (mkTemplate "a" "A") st = Some st' /\
    minimizeZone st' = [rep 0 "A"].
Proof.
  cbv zeta.
  match goal with
  | |- strip_state ?ts ?st /\ (exists st', minimize ?lay ?t _ = _ /\ _) =>
    assert (Hs : strip_state ts st);
    [|split; [exact Hs|];
      destruct (minimize_first_item_goes_to_strip lay t st Hs)
        as (st' & Hm & _ & Hz & _)]
  end.
  { split; [reflexivity|]. split; [reflexivity|]. split; [reflexivity|].
    constructor. }
  { eexists; reflexivity. }
  exists st'. split; [exact Hm|exact Hz].
Defined.

(** [fromDropdownToHorizontalMinimized] on the zone of the dropdown mode:
    the button and the list are removed, [minStorage] is compacted to the
    templates it holds and the zone gets their representations. *)
Lemma fromDropdownToHorizontalMinimized_dropdown_state slots (st : State) :
  minStorage st = slots ->
  minimizeZone st =
    [DropdownBtn (Name "dropdownBtn");
     DropdownList (Name "dropdownList") (live_items slots)] ->
  fromDropdownToHorizontalMinimized 1 st =
  Some (mkState (Entry <$> templates slots) (count st) (elementWidth st) false
          (numItems st) (imap (fun j t => rep j (title t)) (templates slots))
          (panes st)).
Proof.
  intros Hms Hz. unfold fromDropdownToHorizontalMinimized, removeChild.
  rewrite Hz. cbn. rewrite decide_True by lia. cbn.
  rewrite decide_True by lia. cbn.
  rewrite Hms, compact_filter, filter_live_templates, horizontalReps_Entry.
  reflexivity.
Qed.

(** X8.  The recomputation on a window resize, in dropdown mode.  The
    capacity is recomputed from the cached item width.  When the length of
    [minStorage], the emptied slots included, is within the capacity, the
    dropdown is replaced by the strip of the templates still held; otherwise
    nothing changes but the capacity.  No pane is touched. *)
Theorem updateMinimizedItemsOnWindowChange_dropdown
    (lay : ZoneLayout) (slots : list Slot) (st : State) (ew : Z) :
  dropdown_state slots st ->
  elementWidth st = Some ew ->
  exists st',
    updateMinimizedItemsOnWindowChange lay st = Some st' /\
    numItems st' = floor_div (clientWidth lay) ew /\
    panes st' = panes st /\
    (if le_num (Z.of_nat (length slots)) (floor_div (clientWidth lay) ew)
     then strip_state (templates slots) st'
     else dropdown_state slots st').
Proof.
  intros (Hd & Hms & Hz & Hreg) Hew.
  unfold updateMinimizedItemsOnWindowChange. rewrite Hd, Hew.
  cbn [numItems minStorage minimizeZone set_numItems].
  rewrite Hms.
  destruct (le_num (Z.of_nat (length slots)) (floor_div (clientWidth lay) ew)) eqn:Hle.
  - rewrite Hz. cbn [firstElementChild head lookup list_lookup mbind option_bind].
    rewrite (fromDropdownToHorizontalMinimized_dropdown_state slots)
      by (cbn; assumption).
    cbn. eexists. split; [reflexivity|]. split; [reflexivity|].
    split; [reflexivity|].
    split; [reflexivity|]. split; [reflexivity|]. split; [reflexivity|].
    exact Hreg.
  - eexists. split; [reflexivity|]. split; [reflexivity|].
    split; [reflexivity|].
    split; [exact Hd|]. split; [exact Hms|]. split; [exact Hz|exact Hreg].
Qed.

(** Three slots of which the middle one was emptied by a restore, items 100
    wide: in a zone 250 wide the dropdown stays although the two items left
    would fit; in a zone 300 wide the strip comes back with two
    representations. *)
Lemma updateMinimizedItemsOnWindowChange_dropdown_example :
  let plain := fun i =>
    mkPane i false
      (mkStyle 20 10 0 (Px 300) (Px 200) 0 0 DisplayNone)
      (mkStyle 0 0 0 Auto Auto 0 0 DisplayInitial) in
  let a := mkTemplate "a" "A" in
  let c := mkTemplate "c" "C" in
  let slots := [Entry a; EmptySlot; Entry c] in
  let st :=
    mkState slots 2 (Some 100) true (Num 1)
      [DropdownBtn (Name "dropdownBtn");
       DropdownList (Name "dropdownList") [mkItem (Idx 0) "A"; mkItem (Idx 2) "C"]]
      (<["a" := plain "a"]> (<["c" := plain "c"]> ∅)) in
  dropdown_state slots st /\
  (exists st',
     updateMinimizedItemsOnWindowChange
       (mkZoneLayout 250 (fun _ => 100) (fun _ => 0) (fun _ => 0)) st = Some st' /\
     dropdown_state slots st') /\
  (exists st',
     updateMinimizedItemsOnWindowChange
       (mkZoneLayout 300 (fun _ => 100) (fun _ => 0) (fun _ => 0)) st = Some st' /\
     minStorage st' = [Entry a; Entry c] /\
     minimizeZone st' = [rep 0 "A"; rep 1 "C"]).
Proof.
  cbv zeta.
  match goal with
  | |- dropdown_state ?slots ?st /\ _ =>
    assert (Hs : dropdown_state slots st);
    [|split; [exact Hs|]; split;
      [destruct (updateMinimizedItemsOnWindowChange_dropdown
                   (mkZoneLayout 250 (fun _ => 100) (fun _ => 0) (fun _ => 0))
                   slots st 100 Hs eq_refl) as (st' & Hu & _ & _ & Hc)
      |destruct (updateMinimizedItemsOnWindowChange_dropdown
                   (mkZoneLayout 300 (fun _ => 100) (fun _ => 0) (fun _ => 0))
                   slots st 100 Hs eq_refl) as (st' & Hu & _ & _ & Hc)]]
  end.
  { split; [reflexivity|]. split; [reflexivity|]. split; [reflexivity|].
    repeat constructor; eexists; reflexivity. }
  - exists st'. split; [exact Hu|exact Hc].
  - exists st'. split; [exact Hu|].
    destruct Hc as (_ & Hms & Hz & _). split; [exact Hms|exact Hz].
Defined.


(** ** Proofs: more on maximize and restore *)







(** ** Proofs: more on resize steps and on the window pass *)

(** X15.  A resize step keeps the opposite edge where it is.  On a resizable
    pane whose inline size agrees with its tracks, a step at a resize point
    of the left zone moves the left edge and keeps the right edge of the
    offset box; at any other point the left edge is kept.  Likewise a step
    at a point of the top zone keeps the bottom edge, and at any other point
    the top edge is kept.  This holds whether the step is committed or
    rejected. *)
Theorem resize_keeps_opposite_edge (w : Window) (p : Pane) (resizePoint : string)
    (mouseDrag : MouseDrag) :
  consistent p ->
  resizable p = true ->
  let p' := changeElementSizeAndPosition w p resizePoint mouseDrag in
  let zone := getResizePointZone resizePoint in
  (fst zone = Some 0 ->
     offsetLeft (dragTarget p') + offsetWidth w p' =
     offsetLeft (dragTarget p) + offsetWidth w p) /\
  (fst zone <> Some 0 -> offsetLeft (dragTarget p') = offsetLeft (dragTarget p)) /\
  (snd zone = Some 2 ->
     offsetTop (dragTarget p') + offsetHeight w p' =
     offsetTop (dragTarget p) + offsetHeight w p) /\
  (snd zone <> Some 2 -> offsetTop (dragTarget p') = offsetTop (dragTarget p)).
Proof.
  intros Hc Hr p' zone. subst p' zone.
  destruct (Hc Hr) as [Hw Hh].
  unfold changeElementSizeAndPosition.
  set (zx := fst (getResizePointZone resizePoint)).
  set (zy := snd (getResizePointZone resizePoint)).
  set (p1 := changeHorizontalMeasures w p (md_x mouseDrag) zx).
  destruct (changeHorizontalMeasures_vertical w p (md_x mouseDrag) zx)
    as (Hh1 & Ht1 & Hr1 & Hres1). fold p1 in Hh1, Ht1, Hr1, Hres1.
  destruct (changeVerticalMeasures_horizontal w p1 (md_y mouseDrag) zy)
    as (Hw2 & Hl2 & Hc2 & Hres2).
  set (p2 := changeVerticalMeasures w p1 (md_y mouseDrag) zy) in *.
  assert (Hres : resizable p2 = true) by congruence.
  unfold offsetLeft, offsetTop, offsetWidth, offsetHeight, dragTarget.
  rewrite Hres, Hr, Hl2, Hc2.
  assert (Hhor :
    (zx = Some 0 ->
       left (parentStyle p1) + gridTemplateColumns (parentStyle p1) =
       left (parentStyle p) + gridTemplateColumns (parentStyle p)) /\
    (zx <> Some 0 -> left (parentStyle p1) = left (parentStyle p))).
  { subst p1. destruct zx as [z|]; [|split; [discriminate|reflexivity]].
    rewrite (changeHorizontalMeasures_spec w p (md_x mouseDrag) z _
               (f_equal parseIntSlice2 Hw)).
    unfold growthX, offsetLeft.
    split.
    - intros [= ->]. destruct_tests; lia_tests; cbn; lia.
    - intros Hne. destruct_tests; lia_tests; cbn; try reflexivity;
        exfalso; apply Hne; f_equal; assumption. }
  assert (Hver :
    (zy = Some 2 ->
       top (parentStyle p2) + gridTemplateRows (parentStyle p2) =
       top (parentStyle p) + gridTemplateRows (parentStyle p)) /\
    (zy <> Some 2 -> top (parentStyle p2) = top (parentStyle p))).
  { subst p2. rewrite <- Ht1, <- Hr1.
    assert (Hh' : height (style p1) = Px (gridTemplateRows (parentStyle p1)))
      by congruence.
    destruct zy as [z|]; [|split; [discriminate|reflexivity]].
    rewrite (changeVerticalMeasures_spec w p1 (md_y mouseDrag) z _
               (f_equal parseIntSlice2 Hh')).
    unfold growthY, offsetTop.
    split.
    - intros [= ->]. destruct_tests; lia_tests; cbn; lia.
    - intros Hne. destruct_tests; lia_tests; cbn; try reflexivity;
        exfalso; apply Hne; f_equal; assumption. }
  destruct Hhor as [Hx0 Hx1]. destruct Hver as [Hy0 Hy1].
  split; [intros E; specialize (Hx0 E); lia|].
  split; [exact Hx1|].
  split; [intros E; specialize (Hy0 E); lia|exact Hy1].
Qed.

Lemma resize_keeps_opposite_edge_example :
  let w := mkWindow 1000 800 1000 800 1000 800 in
  let p :=
    mkPane "pane" true
      (mkStyle 0 0 0 (Px 200) (Px 150) 0 0 DisplayInitial)
      (mkStyle 50 100 0 Auto Auto 150 200 DisplayGrid) in
  let p' := changeElementSizeAndPosition w p "upperLeft" (mkMouseDrag 40 (-5)) in
  offsetLeft (dragTarget p') = 60 /\ offsetTop (dragTarget p') = 55 /\
  offsetLeft (dragTarget p') + offsetWidth w p' = 306 /\
  offsetTop (dragTarget p') + offsetHeight w p' = 206.
Proof.
  cbv zeta.
  match goal with
  | |- offsetLeft (dragTarget (changeElementSizeAndPosition ?w ?p ?rp ?md)) = _ /\ _ =>
    destruct (resize_keeps_opposite_edge w p rp md) as (Hx & _ & Hy & _)
  end.
  { intros _. split; reflexivity. }
  { reflexivity. }
  split; [reflexivity|]. split; [reflexivity|].
  split; [rewrite Hx by reflexivity; reflexivity
         |rewrite Hy by reflexivity; reflexivity].
Defined.

(** X16.  The horizontal and the vertical part of a resize step commute:
    they read and write disjoint properties, so a corner step gives the same
    pane in either order. *)
Theorem resize_axes_commute (w : Window) (p : Pane) (dx dy : Z)
    (zx zy : option Z) :
  changeVerticalMeasures w (changeHorizontalMeasures w p dx zx) dy zy =
  changeHorizontalMeasures w (changeVerticalMeasures w p dy zy) dx zx.
Proof.
  destruct p as [i r [t l m wd h gr gc d] [pt pl pm pw ph pgr pgc pd]].
  unfold changeHorizontalMeasures, changeVerticalMeasures, offsetLeft, offsetTop.
  cbn.
  destruct zx as [zx|], zy as [zy|]; try reflexivity;
    destruct (parseIntSlice2 wd) as [nw|] eqn:Hpw,
             (parseIntSlice2 h) as [nh|] eqn:Hph; cbn; rewrite ?Hpw, ?Hph;
    try reflexivity;
    repeat match goal with
    | |- context [if ?b then _ else _] =>
      destruct b eqn:?; cbn; rewrite ?Hpw, ?Hph
    end; try reflexivity; try congruence;
    exfalso; lia_tests; try discriminate; lia.
Qed.

Lemma resizeOnWindowChange_pane_parts (w : Window) (p : Pane) :
  resizeOnWindowChange_pane w p = windowPassHeight w (windowPassWidth w p).
Proof. reflexivity. Qed.

Lemma windowPass_parts_commute (w : Window) (p : Pane) :
  windowPassWidth w (windowPassHeight w p) = windowPassHeight w (windowPassWidth w p).
Proof.
  destruct p as [i r [t l m wd h gr gc d] [pt pl pm pw ph pgr pgc pd]].
  unfold windowPassWidth, windowPassHeight, offsetLeft, offsetTop. cbn.
  destruct (parseIntSlice2 wd) as [nw|] eqn:Hpw,
           (parseIntSlice2 h) as [nh|] eqn:Hph; cbn; rewrite ?Hpw, ?Hph;
    try reflexivity;
    repeat match goal with
    | |- context [if ?b then _ else _] =>
      destruct b eqn:?; cbn; rewrite ?Hpw, ?Hph
    end; try reflexivity; try congruence;
    exfalso; lia_tests; try discriminate; lia.
Qed.

Lemma windowPassWidth_stable (w : Window) (p : Pane) :
  windowPassWidth w (windowPassWidth w (windowPassWidth w p)) =
  windowPassWidth w (windowPassWidth w p).
Proof.
  destruct p as [i r [t l m wd h gr gc d] [pt pl pm pw ph pgr pgc pd]].
  unfold windowPassWidth, offsetLeft. cbn.
  destruct (parseIntSlice2 wd) as [nw|] eqn:Hp; cbn; rewrite ?Hp; cbn;
    try reflexivity;
    repeat match goal with
    | |- context [if ?b then _ else _] =>
      destruct b eqn:?; cbn; rewrite ?Hp; cbn
    end; try reflexivity; try congruence;
    exfalso; lia_tests; try discriminate; lia.
Qed.

Lemma windowPassHeight_stable (w : Window) (p : Pane) :
  windowPassHeight w (windowPassHeight w (windowPassHeight w p)) =
  windowPassHeight w (windowPassHeight w p).
Proof.
  destruct p as [i r [t l m wd h gr gc d] [pt pl pm pw ph pgr pgc pd]].
  unfold windowPassHeight, offsetTop. cbn.
  destruct (parseIntSlice2 h) as [nh|] eqn:Hp; cbn; rewrite ?Hp; cbn;
    try reflexivity;
    repeat match goal with
    | |- context [if ?b then _ else _] =>
      destruct b eqn:?; cbn; rewrite ?Hp; cbn
    end; try reflexivity; try congruence;
    exfalso; lia_tests; try discriminate; lia.
Qed.

Lemma resizeOnWindowChange_pane_resizable (w : Window) (p : Pane) :
  resizable (resizeOnWindowChange_pane w p) = resizable p.
Proof.
  unfold resizeOnWindowChange_pane.
  destruct (parseIntSlice2 (width (style p))); destruct_tests; cbn;
    destruct (parseIntSlice2 _); destruct_tests; reflexivity.
Qed.

Lemma resizeOnWindowChange_pane_stable (w : Window) (p : Pane) :
  resizeOnWindowChange_pane w
    (resizeOnWindowChange_pane w (resizeOnWindowChange_pane w p)) =
  resizeOnWindowChange_pane w (resizeOnWindowChange_pane w p).
Proof.
  rewrite !resizeOnWindowChange_pane_parts.
  repeat rewrite windowPass_parts_commute.
  rewrite windowPassHeight_stable, windowPassWidth_stable. reflexivity.
Qed.

(** X17.  The containment pass on a window resize settles after two runs: a
    third run on the same window changes no pane.  (One run is not enough
    in general: a run that moves a pane to the right or bottom edge leaves
    its size, and the next run cuts it to the minimum.) *)
Theorem resizeOnWindowChange_settles (w : Window) (panes : list Pane) :
  resizeOnWindowChange w (resizeOnWindowChange w (resizeOnWindowChange w panes)) =
  resizeOnWindowChange w (resizeOnWindowChange w panes).
Proof.
  unfold resizeOnWindowChange. rewrite <- !list_fmap_compose.
  apply list_fmap_ext. intros _ p _. unfold compose.
  destruct (resizable p) eqn:Hr; [|rewrite !Hr; reflexivity].
  assert (Hr1 : resizable (resizeOnWindowChange_pane w p) = true)
    by (rewrite resizeOnWindowChange_pane_resizable; exact Hr).
  assert (Hr2 : resizable (resizeOnWindowChange_pane w
                             (resizeOnWindowChange_pane w p)) = true)
    by (rewrite resizeOnWindowChange_pane_resizable; exact Hr1).
  rewrite Hr1, Hr2. apply resizeOnWindowChange_pane_stable.
Qed.

(** A pane 200 wide at [left = 998] in a window 1000 wide: the first run
    moves it to [989] and leaves its width, the second run cuts the width
    to [5]. *)
Example resizeOnWindowChange_second_run_changes :
  let w := mkWindow 1000 800 1000 800 1000 800 in
  let p :=
    mkPane "pane" true
      (mkStyle 0 0 0 (Px 200) (Px 150) 0 0 DisplayInitial)
      (mkStyle 50 998 0 Auto Auto 150 200 DisplayGrid) in
  (fun q => (left (parentStyle q), width (style q)))
    <$> resizeOnWindowChange w [p] = [(989, Px 200)] /\
  (fun q => (left (parentStyle q), width (style q)))
    <$> resizeOnWindowChange w (resizeOnWindowChange w [p]) = [(989, Px 5)].
Proof. split; reflexivity. Qed.

(** X18.  The containment pass leaves alone what is inside: when the offset
    box of every resizable pane is within the body and its inline size
    agrees with its tracks, the pass changes nothing. *)
Theorem resizeOnWindowChange_contained_unchanged (w : Window) (panes : list Pane) :
  Forall (fun p => resizable p = true -> consistent p /\ contained w p) panes ->
  resizeOnWindowChange w panes = panes.
Proof.
  intros H. unfold resizeOnWindowChange.
  rewrite <- (list_fmap_id panes) at 2.
  apply list_fmap_ext. intros k p Hk.
  rewrite Forall_forall in H.
  assert (Hp := H p (list_elem_of_lookup_2 _ _ _ Hk)).
  destruct (resizable p) eqn:Hr; [|reflexivity].
  destruct (Hp eq_refl) as [Hc (_ & _ & Hx & Hy)].
  destruct (Hc Hr) as [Hw Hh].
  unfold offsetLeft, offsetTop, offsetWidth, offsetHeight, dragTarget in Hx, Hy.
  rewrite Hr in Hx, Hy.
  rewrite resizeOnWindowChange_pane_parts.
  assert (E1 : windowPassWidth w p = p).
  { unfold windowPassWidth, offsetLeft. rewrite Hw. cbn [parseIntSlice2].
    destruct (_ >? _) eqn:E; [lia_tests; lia|reflexivity]. }
  rewrite E1.
  unfold windowPassHeight, offsetTop. rewrite Hh. cbn [parseIntSlice2].
  destruct (_ >? _) eqn:E; [lia_tests; lia|reflexivity].
Qed.

Lemma resizeOnWindowChange_contained_unchanged_example :
  let w := mkWindow 1000 800 1000 800 1000 800 in
  let p :=
    mkPane "pane" true
      (mkStyle 0 0 0 (Px 200) (Px 150) 0 0 DisplayInitial)
      (mkStyle 50 100 0 Auto Auto 150 200 DisplayGrid) in
  let q :=
    mkPane "note" false
      (mkStyle 900 950 0 (Px 300) (Px 200) 0 0 DisplayBlock)
      (mkStyle 0 0 0 Auto Auto 0 0 DisplayInitial) in
  resizeOnWindowChange w [p; q] = [p; q].
Proof.
  cbv zeta. apply resizeOnWindowChange_contained_unchanged.
  repeat constructor; cbn; discriminate.
Defined.

(** ** Proofs: registration *)

Lemma initialResizeCssProperties_consistent (computed : Registration.Computed)
    (p : Pane) :
  consistent (Registration.initialResizeCssProperties computed p).
Proof. intros _. split; reflexivity. Qed.

(** X19.  Registration and what follows.  [resizable] gives a pane whose
    wrapper has the computed position of the element and whose tracks are
    the computed size, [200] for a computed width of [0] and [150] for a
    computed height of [0]; its offset box is that size plus the six pixels
    of the resize points in each direction.  When this box is within the
    body, it stays within the body along every sequence of move and resize
    steps. *)
Theorem registered_pane_stays_contained (w : Window)
    (computed : Registration.Computed) (element : Pane) (steps : list Step) :
  let p := Registration.resizable computed element in
  let wd :=
    if Registration.c_width computed =? 0 then 200
    else Registration.c_width computed in
  let h :=
    if Registration.c_height computed =? 0 then 150
    else Registration.c_height computed in
  0 <= Registration.c_left computed ->
  0 <= Registration.c_top computed ->
  Registration.c_left computed + wd + 6 <= bodyClientWidth w ->
  Registration.c_top computed + h + 6 <= bodyClientHeight w ->
  offsetLeft (dragTarget p) = Registration.c_left computed /\
  offsetTop (dragTarget p) = Registration.c_top computed /\
  offsetWidth w p = wd + 6 /\
  offsetHeight w p = h + 6 /\
  Forall (contained w) (trace w p steps).
Proof.
  intros p wd h Hl Ht Hr Hb.
  split; [reflexivity|]. split; [reflexivity|].
  split; [unfold offsetWidth; cbn; fold wd; lia|].
  split; [unfold offsetHeight; cbn; fold h; lia|].
  eapply Forall_impl; [apply (trace_inv w true steps p)|].
  - split; [apply initialResizeCssProperties_consistent|].
    unfold contained, offsetLeft, offsetTop, offsetWidth, offsetHeight.
    cbn. fold wd h. lia.
  - intros q [_ Hq]. exact Hq.
Qed.

Lemma registered_pane_stays_contained_example :
  let w := mkWindow 1000 800 1000 800 1000 800 in
  let element :=
    mkPane "win" false
      (mkStyle 50 100 0 Auto Auto 0 0 DisplayInitial)
      (mkStyle 0 0 0 Auto Auto 0 0 DisplayInitial) in
  let p := Registration.resizable (Registration.mkComputed 0 0 50 100) element in
  offsetWidth w p = 206 /\ offsetHeight w p = 156 /\
  Forall (contained w)
    (trace w p [(ActResize "lowerRight", mkMouseDrag (-900) (-10));
                (ActDrag, mkMouseDrag 30 (-20))]).
Proof.
  cbv zeta.
  match goal with
  | |- offsetWidth ?w (Registration.resizable ?c ?e) = _ /\ _ /\
       Forall _ (trace _ _ ?steps) =>
    destruct (registered_pane_stays_contained w c e steps)
      as (_ & _ & Hw & Hh & Hf)
  end.
  { cbn. lia. }
  { cbn. lia. }
  { cbn. lia. }
  { cbn. lia. }
  split; [exact Hw|]. split; [exact Hh|exact Hf].
Defined.

(** ** Proofs: the stack order *)

(** X20.  Bringing a pane to the front.  After a mouse-down on an
    interactive element, that element, and no other, has the level [2]; a
    resizable pane that was not pressed has the level [1] on its wrapper and
    another pane has ['inherit'].  The panes themselves and their number are
    unchanged, and the outcome depends on the last press only. *)
Theorem changeStackOrder_front (this : nat) (all : list Stacked) :
  length (changeStackOrder this all) = length all /\
  (pane <$> changeStackOrder this all) = (pane <$> all) /\
  (forall i e, changeStackOrder this all !! i = Some e ->
     (stackLevel e = ZNum 2 <-> i = this) /\
     (i <> this ->
      stackLevel e = if resizable (pane e) then ZNum 1 else ZInherit)) /\
  (forall earlier, changeStackOrder this (changeStackOrder earlier all) =
                   changeStackOrder this all).
Proof.
  unfold changeStackOrder.
  split; [apply length_imap|].
  split.
  { apply list_eq. intros i.
    rewrite !list_lookup_fmap, list_lookup_imap.
    destruct (all !! i) as [e|]; [|reflexivity]. cbn.
    destruct (decide (i = this)), (resizable (pane e)); reflexivity. }
  split.
  { intros i e Hi. rewrite list_lookup_imap in Hi.
    destruct (all !! i) as [e0|]; [|discriminate Hi]. cbn in Hi.
    injection Hi as <-. unfold stackLevel.
    destruct (decide (i = this)) as [->|Hne], (resizable (pane e0)) eqn:Hr;
      cbn; rewrite Hr; cbn;
      (split; [split; intros E; first [congruence|reflexivity]
              |intros E; first [congruence|reflexivity]]). }
  intros earlier. apply list_eq. intros i. rewrite !list_lookup_imap.
  destruct (all !! i) as [e0|]; [|reflexivity]. cbn. f_equal.
  destruct e0 as [p z pz].
  destruct (decide (i = this)), (decide (i = earlier)), (resizable p) eqn:Hr;
    cbv [set_parentZIndex set_zIndex pane zIndex parentZIndex];
    rewrite ?Hr; reflexivity.
Qed.

(** ** Proofs: pointer events *)

(** Without a handler installed, an event that is not a press of the
    primary button on a handle changes nothing. *)
Lemma dispatch_idle (w : Window) (d : Document) (e : Event) :
  handler d = None -> ~ primary_press e -> dispatch w d e = d.
Proof.
  intros Hh Hp. destruct e as [target handle which cx cy|cx cy|]; cbn.
  - unfold onmousedown. destruct (elements d !! target) as [p|]; [|reflexivity].
    destruct (match handle with ActResize _ => resizable p | ActDrag => true end);
      [|reflexivity].
    destruct (which =? 1) eqn:E; [|reflexivity].
    exfalso. apply Hp. cbn. lia_tests. assumption.
  - rewrite Hh. reflexivity.
  - rewrite Hh. reflexivity.
Qed.

Lemma run_idle (w : Window) (events : list Event) (d : Document) :
  handler d = None -> Forall (fun e => ~ primary_press e) events ->
  run w d events = d.
Proof.
  intros Hh Hf. induction Hf as [|e events He Hf IH]; [reflexivity|].
  unfold run in *. cbn. rewrite dispatch_idle by assumption. exact IH.
Qed.

(** X21.  Releasing the button ends the session.  After a mouse-up, mouse
    moves and presses of another button change no pane, however many follow,
    until the primary button is pressed on a handle again. *)
Theorem release_stops_tracking (w : Window) (d : Document) (events : list Event) :
  Forall (fun e => ~ primary_press e) events ->
  elements (run w (dispatch w d MouseUp) events) = elements d /\
  handler (run w (dispatch w d MouseUp) events) = None.
Proof.
  intros Hf.
  assert (Hup : handler (dispatch w d MouseUp) = None /\
                elements (dispatch w d MouseUp) = elements d).
  { cbn. destruct (handler d) eqn:Hh; [split; reflexivity|split; [exact Hh|reflexivity]]. }
  destruct Hup as [Hh He].
  rewrite run_idle by assumption. split; assumption.
Qed.

Lemma release_stops_tracking_example :
  let w := mkWindow 1000 800 1000 800 1000 800 in
  let p :=
    mkPane "note" false
      (mkStyle 20 10 0 (Px 300) (Px 200) 0 0 DisplayBlock)
      (mkStyle 0 0 0 Auto Auto 0 0 DisplayInitial) in
  let d := mkDocument (Some (mkHandler ActDrag "note" 15 25)) (<["note" := p]> ∅) in
  elements (run w (dispatch w d MouseUp)
              [MouseMove 100 100; MouseDown "note" ActDrag 3 100 100;
               MouseMove 300 200]) = <["note" := p]> ∅.
Proof.
  cbv zeta.
  match goal with
  | |- elements (run ?w (dispatch _ ?d MouseUp) ?events) = _ =>
    apply (proj1 (release_stops_tracking w d events
                    ltac:(repeat constructor; cbn; try tauto; discriminate)))
  end.
Defined.

(** X22.  A session moves the pane of the pressed handle only.  A pane that
    no handler is installed for, and on whose handles the primary button is
    not pressed, is left as it is by every sequence of events. *)
Theorem events_leave_other_panes (w : Window) (events : list Event)
    (d : Document) (j : string) :
  (forall h, handler d = Some h -> h_target h <> j) ->
  Forall (fun e => ~ presses j e) events ->
  elements (run w d events) !! j = elements d !! j.
Proof.
  intros Hh Hf. revert d Hh.
  induction Hf as [|e events He Hf IH]; intros d Hh; [reflexivity|].
  unfold run in *. cbn [foldl].
  assert (Hstep : (forall h, handler (dispatch w d e) = Some h -> h_target h <> j) /\
                  elements (dispatch w d e) !! j = elements d !! j).
  { destruct e as [target handle which cx cy|cx cy|]; cbn.
    - unfold onmousedown. destruct (elements d !! target) as [p|]; [|split; [exact Hh|reflexivity]].
      destruct (match handle with ActResize _ => resizable p | ActDrag => true end);
        [|split; [exact Hh|reflexivity]].
      destruct (which =? 1) eqn:E; [|split; [exact Hh|reflexivity]].
      split; [|reflexivity].
      intros h [= <-]. cbn. intros ->. apply He. cbn. lia_tests. split; [assumption|reflexivity].
    - destruct (handler d) as [h|] eqn:Hd; [|split; [intros h' Hd'; congruence|reflexivity]].
      destruct (elements d !! h_target h) as [p|]; [|split; [rewrite Hd; exact Hh|reflexivity]].
      cbn. split.
      + intros h' [= <-]. cbn. apply Hh. reflexivity.
      + apply lookup_insert_ne. apply Hh. reflexivity.
    - destruct (handler d) eqn:Hd; cbn; (split; [|reflexivity]).
      + intros h' Hd'. discriminate Hd'.
      + intros h' Hd'. congruence. }
  destruct Hstep as [Hh' He'].
  rewrite (IH _ Hh'). exact He'.
Qed.

Lemma events_leave_other_panes_example :
  let w := mkWindow 1000 800 1000 800 1000 800 in
  let p := fun i =>
    mkPane i false
      (mkStyle 20 10 0 (Px 300) (Px 200) 0 0 DisplayBlock)
      (mkStyle 0 0 0 Auto Auto 0 0 DisplayInitial) in
  let d := mkDocument None (<["a" := p "a"]> (<["b" := p "b"]> ∅)) in
  elements (run w d [MouseDown "a" ActDrag 1 15 25; MouseMove 100 100; MouseUp])
    !! "b" = Some (p "b").
Proof.
  cbv zeta.
  match goal with
  | |- elements (run ?w ?d ?events) !! ?j = _ =>
    refine (eq_trans (events_leave_other_panes w events d j _ _) _)
  end.
  - intros h Hh. discriminate Hh.
  - repeat constructor; cbn; try tauto. intros [_ E]. discriminate E.
  - reflexivity.
Defined.

Lemma dragAction_resizable (w : Window) (a : Action) (md : MouseDrag) (p : Pane) :
  resizable (dragAction w a md p) = resizable p.
Proof.
  destruct a as [rp|]; cbn.
  - unfold changeElementSizeAndPosition.
    destruct (changeVerticalMeasures_horizontal w
                (changeHorizontalMeasures w p (md_x md) (fst (getResizePointZone rp)))
                (md_y md) (snd (getResizePointZone rp))) as (_ & _ & _ & E).
    rewrite E.
    destruct (changeHorizontalMeasures_vertical w p (md_x md)
                (fst (getResizePointZone rp))) as (_ & _ & _ & E').
    exact E'.
  - apply drag_resizable.
Qed.

(** The invariant of a document: every pane is consistent and contained, and
    the handler is one that a press has installed. *)
Lemma dispatch_inv (w : Window) (d : Document) (e : Event) :
  (forall i p, elements d !! i = Some p -> inv w true p) ->
  handler_ok d ->
  (forall i p, elements (dispatch w d e) !! i = Some p -> inv w true p) /\
  handler_ok (dispatch w d e).
Proof.
  unfold handler_ok.
  intros Hinv Hwf. destruct e as [target handle which cx cy|cx cy|]; cbn.
  - unfold onmousedown. destruct (elements d !! target) as [p|] eqn:Hp;
      [|split; [exact Hinv|exact Hwf]].
    destruct (match handle with ActResize _ => resizable p | ActDrag => true end)
      eqn:Hres; [|split; [exact Hinv|exact Hwf]].
    destruct (which =? 1); [|split; [exact Hinv|exact Hwf]].
    split; [exact Hinv|].
    cbn. intros c q -> Hq. rewrite Hp in Hq. injection Hq as <-.
    exact Hres.
  - destruct (handler d) as [h|] eqn:Hd; [|split; [exact Hinv|rewrite Hd; exact I]].
    destruct (elements d !! h_target h) as [p|] eqn:Hp;
      [|split; [exact Hinv|rewrite Hd; intros c q _ Hq; congruence]].
    cbn. split.
    + intros i q. rewrite lookup_insert. case_decide as E.
      * intros [= <-]. unfold onmousemove. cbn.
        assert (Hstep : dragAction w (h_action h)
                          {| md_x := h_x1 h - cx; md_y := h_y1 h - cy |} p =
                        step w p (h_action h,
                                  {| md_x := h_x1 h - cx; md_y := h_y1 h - cy |})).
        { unfold step. cbn. destruct (h_action h) as [c|] eqn:Ha; [|reflexivity].
          rewrite (Hwf c p eq_refl eq_refl). reflexivity. }
        rewrite Hstep. apply step_inv. apply (Hinv _ _ Hp).
      * apply Hinv.
    + intros c q Ha. rewrite lookup_insert_eq.
      intros [= <-]. unfold onmousemove. cbn.
      rewrite dragAction_resizable. exact (Hwf c p Ha eq_refl).
  - destruct (handler d) eqn:Hd; cbn.
    + split; [exact Hinv|exact I].
    + split; [exact Hinv|rewrite Hd; exact I].
Qed.

(** X23.  Containment along pointer events.  In a document where no session
    is open and every pane is inside the body with an inline size that
    agrees with its tracks, every sequence of presses, moves and releases
    leaves every pane inside the body. *)
Theorem events_keep_panes_contained (w : Window) (events : list Event)
    (d : Document) :
  handler d = None ->
  (forall i p, elements d !! i = Some p -> consistent p /\ contained w p) ->
  forall i p, elements (run w d events) !! i = Some p ->
    consistent p /\ contained w p.
Proof.
  intros Hh Hinv.
  assert (Hwf : handler_ok d) by (unfold handler_ok; rewrite Hh; exact I).
  assert (Hinv' : forall i p, elements d !! i = Some p -> inv w true p)
    by exact Hinv.
  clear Hh Hinv. revert d Hwf Hinv'.
  induction events as [|e events IH]; intros d Hwf Hinv i p Hp.
  - exact (Hinv i p Hp).
  - unfold run in *. cbn [foldl] in Hp.
    destruct (dispatch_inv w d e Hinv Hwf) as [Hinv1 Hwf1].
    exact (IH _ Hwf1 Hinv1 i p Hp).
Qed.

Lemma events_keep_panes_contained_example :
  let w := mkWindow 1000 800 1000 800 1000 800 in
  let p :=
    mkPane "pane" true
      (mkStyle 0 0 0 (Px 200) (Px 150) 0 0 DisplayInitial)
      (mkStyle 50 100 0 Auto Auto 150 200 DisplayGrid) in
  let d := mkDocument None (<["pane" := p]> ∅) in
  let events :=
    [MouseDown "pane" (ActResize "lowerRight") 1 306 206;
     MouseMove 2000 2000; MouseUp;
     MouseDown "pane" ActDrag 1 110 60;
     MouseMove (-500) 70] in
  exists q,
    elements (run w d events) !! "pane" = Some q /\ contained w q.
Proof.
  cbv zeta. eexists. split; [reflexivity|].
  match goal with
  | |- contained ?w ?q =>
    refine (proj2 (events_keep_panes_contained w
              [MouseDown "pane" (ActResize "lowerRight") 1 306 206;
               MouseMove 2000 2000; MouseUp;
               MouseDown "pane" ActDrag 1 110 60;
               MouseMove (-500) 70]
              (mkDocument None
                 (<["pane" :=
                      mkPane "pane" true
                        (mkStyle 0 0 0 (Px 200) (Px 150) 0 0 DisplayInitial)
                        (mkStyle 50 100 0 Auto Auto 150 200 DisplayGrid)]> ∅))
              eq_refl _ "pane" q eq_refl))
  end.
  intros i p. cbn [elements]. rewrite lookup_insert.
  case_decide; [|rewrite lookup_empty; discriminate].
  intros [= <-]. split; [intros _; split; reflexivity|].
  unfold contained, offsetLeft, offsetTop, offsetWidth, offsetHeight; cbn; lia.
Defined.

Lemma translate_dragTarget (dx dy : Z) (p : Pane) :
  left (dragTarget (translate dx dy p)) = left (dragTarget p) + dx /\
  top (dragTarget (translate dx dy p)) = top (dragTarget p) + dy /\
  resizable (translate dx dy p) = resizable p /\
  (forall w, offsetWidth w (translate dx dy p) = offsetWidth w p) /\
  (forall w, offsetHeight w (translate dx dy p) = offsetHeight w p).
Proof.
  destruct p as [i [] s ps]; repeat split; reflexivity.
Qed.

Lemma translate_0 (p : Pane) : translate 0 0 p = p.
Proof.
  destruct p as [i [] [t l m wd h gr gc d] [pt pl pm pw ph pgr pgc pd]];
    unfold translate, with_dragTarget, with_style, with_parentStyle, set_top, set_left;
    cbn; rewrite !Z.add_0_r; reflexivity.
Qed.

Lemma translate_translate (a b c d : Z) (p : Pane) :
  translate a b (translate c d p) = translate (c + a) (d + b) p.
Proof.
  destruct p as [i [] [t l m wd h gr gc ds] [pt pl pm pw ph pgr pgc pd]];
    unfold translate, with_dragTarget, with_style, with_parentStyle, set_top, set_left;
    cbn; rewrite !Z.add_assoc; reflexivity.
Qed.

(** A drag step whose target rectangle is within the body is carried out in
    full. *)
Lemma drag_translate (w : Window) (p : Pane) (md : MouseDrag) :
  contained w (translate (- md_x md) (- md_y md) p) ->
  drag w p md = translate (- md_x md) (- md_y md) p.
Proof.
  intros (H0x & H0y & Hx & Hy).
  destruct (translate_dragTarget (- md_x md) (- md_y md) p)
    as (El & Et & _ & Ew & Eh).
  unfold offsetLeft, offsetTop in *. rewrite El, Ew in Hx. rewrite Et, Eh in Hy.
  rewrite El in H0x. rewrite Et in H0y.
  assert (Ex : x (getDragNewPosition w p md) = left (dragTarget p) + - md_x md).
  { rewrite getDragNewPosition_x. cbv zeta. unfold offsetLeft.
    destruct_tests; lia_tests; lia. }
  assert (Ey : y (getDragNewPosition w p md) = top (dragTarget p) + - md_y md).
  { rewrite getDragNewPosition_y. cbv zeta. unfold offsetTop.
    destruct_tests; lia_tests; lia. }
  unfold drag. cbv zeta. rewrite Ex, Ey.
  destruct p as [i [] s ps]; reflexivity.
Qed.

(** The moves of a drag session, from the state a press has left. *)
Lemma drag_run (w : Window) (target : string) (p : Pane) (x0 y0 : Z)
    (pts : list (Z * Z)) (d : Document) (xc yc : Z) :
  handler d = Some (mkHandler ActDrag target xc yc) ->
  elements d !! target = Some (translate (xc - x0) (yc - y0) p) ->
  Forall (fun pt => contained w (translate (fst pt - x0) (snd pt - y0) p)) pts ->
  elements (run w d ((fun pt => MouseMove (fst pt) (snd pt)) <$> pts)) !! target =
  Some (translate (fst (default (xc, yc) (last pts)) - x0)
                  (snd (default (xc, yc) (last pts)) - y0) p).
Proof.
  intros Hh He Hf. revert d xc yc Hh He.
  induction Hf as [|[px py] pts Hpt Hf IH]; intros d xc yc Hh He.
  - exact He.
  - unfold run in *. cbn [fmap list_fmap foldl fst snd].
    set (d1 := dispatch w d (MouseMove px py)).
    assert (Hd1 : handler d1 = Some (mkHandler ActDrag target px py) /\
                  elements d1 !! target = Some (translate (px - x0) (py - y0) p)).
    { subst d1. cbn. rewrite Hh. cbn. rewrite He. cbn.
      split; [reflexivity|]. rewrite lookup_insert_eq. f_equal.
      cbn [fst snd] in Hpt.
      rewrite drag_translate; cbn [md_x md_y]; rewrite translate_translate.
      - f_equal; lia.
      - replace (xc - x0 + - (xc - px)) with (px - x0) by lia.
        replace (yc - y0 + - (yc - py)) with (py - y0) by lia.
        exact Hpt. }
    destruct Hd1 as [Hh1 He1].
    rewrite (IH d1 px py Hh1 He1).
    rewrite last_cons. destruct (last pts) as [[lx ly]|]; reflexivity.
Qed.

(** X24.  The pane follows the pointer.  After a press of the primary
    button on the drag point of a pane, as long as every pointer position of
    the session would put the pane within the body, the pane has moved by
    exactly the displacement of the pointer since the press. *)
Theorem drag_session_follows_pointer (w : Window) (d : Document)
    (target : string) (p : Pane) (x0 y0 : Z) (pts : list (Z * Z)) :
  elements d !! target = Some p ->
  Forall (fun pt => contained w (translate (fst pt - x0) (snd pt - y0) p)) pts ->
  elements
    (run w (dispatch w d (MouseDown target ActDrag 1 x0 y0))
       ((fun pt => MouseMove (fst pt) (snd pt)) <$> pts)) !! target =
  Some (translate (fst (default (x0, y0) (last pts)) - x0)
                  (snd (default (x0, y0) (last pts)) - y0) p).
Proof.
  intros He Hf.
  apply drag_run; [| |exact Hf].
  - cbn. unfold onmousedown. rewrite He. reflexivity.
  - cbn. unfold onmousedown. rewrite He. cbn.
    rewrite !Z.sub_diag, translate_0. exact He.
Qed.

Lemma drag_session_follows_pointer_example :
  let w := mkWindow 1000 800 1000 800 1000 800 in
  let p :=
    mkPane "note" false
      (mkStyle 20 10 0 (Px 300) (Px 200) 0 0 DisplayBlock)
      (mkStyle 0 0 0 Auto Auto 0 0 DisplayInitial) in
  let d := mkDocument None (<["note" := p]> ∅) in
  elements
    (run w (dispatch w d (MouseDown "note" ActDrag 1 15 25))
       [MouseMove 115 25; MouseMove 215 325; MouseMove 65 75]) !! "note" =
  Some (mkPane "note" false
          (mkStyle 70 60 0 (Px 300) (Px 200) 0 0 DisplayBlock)
          (mkStyle 0 0 0 Auto Auto 0 0 DisplayInitial)).
Proof.
  cbv zeta.
  match goal with
  | |- elements (run ?w (dispatch _ ?d (MouseDown ?t _ _ ?x0 ?y0)) _) !! _ = _ =>
    refine (eq_trans
              (drag_session_follows_pointer w d t
                 (mkPane "note" false
                    (mkStyle 20 10 0 (Px 300) (Px 200) 0 0 DisplayBlock)
                    (mkStyle 0 0 0 Auto Auto 0 0 DisplayInitial))
                 x0 y0 [(115, 25); (215, 325); (65, 75)] eq_refl _) _)
  end.
  - repeat constructor; cbn; discriminate.
  - reflexivity.
Defined.
